(** * Context-assembly pipeline of the three Go agents

    A shallow embedding of [scripts/agents/go_architect.py],
    [scripts/agents/go_engineer_reviewer.py] and [scripts/agents/go_tester.py]:
    file discovery, per-file rendering, context assembly, the single call to
    the text-generation service and the routing of the answer.

    Python text is modelled by [string]; the functions of [str] the scripts
    use are written out in [Module Py].  Everything the scripts ask of their
    surroundings (environment, directory tree, file contents, the [git]
    child process, the remote service) is a field of [World]; everything
    they do to their surroundings is an [event] of the trace an action
    returns next to its outcome.

    Outside the model: the parse of the command line (each [main] starts
    from the parsed arguments), the import guard at the head of each script,
    the construction of the client object, which sends nothing, and the
    wording of the three system prompts, a parameter of each agent.  A
    character of a [string] stands for a code point below 256, and case and
    white space are Python's on those code points; text with other code
    points has no counterpart here.  Globbing is case-sensitive, as on
    POSIX, and lists a directory before it descends, as [pathlib] does up
    to Python 3.12. *)

From Stdlib Require Import String Ascii List ZArith Bool Arith Lia.
From Stdlib Require Import Sorting.Sorted Sorting.Permutation.
From Stdlib Require Import Orders Sorting.Mergesort.
Import ListNotations.
Local Open Scope list_scope.
Local Open Scope string_scope.

(** ** Python's [str] operations *)

Module Py.

(** The newline character written "\n" in the sources. *)
Definition LF : ascii := "010"%char.
Definition nl : string := String LF EmptyString.

(** [s.startswith(p)] *)
Definition startswith (s p : string) : bool := prefix p s.

(** [s.endswith(suf)]: some tail of [s] is [suf]. *)
Fixpoint endswith (s suf : string) : bool :=
  (s =? suf) ||
  match s with
  | EmptyString => false
  | String _ s' => endswith s' suf
  end.

(** [sub in s]: [sub] is a prefix of some tail of [s]. *)
Fixpoint contains (sub s : string) : bool :=
  prefix sub s ||
  match s with
  | EmptyString => false
  | String _ s' => contains sub s'
  end.

(** [str.isspace] on one character: tab, line feed, vertical tab, form
    feed, carriage return, the four separators 28..31, space, and of the
    code points from 128 to 255 the next-line control 133 and the no-break
    space 160. *)
Definition isspace (c : ascii) : bool :=
  let n := nat_of_ascii c in
  ((9 <=? n)%nat && (n <=? 13)%nat) || ((28 <=? n)%nat && (n <=? 32)%nat)
  || (n =? 133)%nat || (n =? 160)%nat.

Fixpoint lstrip (s : string) : string :=
  match s with
  | EmptyString => EmptyString
  | String c s' => if isspace c then lstrip s' else s
  end.

Fixpoint rstrip (s : string) : string :=
  match s with
  | EmptyString => EmptyString
  | String c s' =>
      match rstrip s' with
      | EmptyString => if isspace c then EmptyString else String c EmptyString
      | r => String c r
      end
  end.

(** [s.strip()] *)
Definition strip (s : string) : string := rstrip (lstrip s).

(** [s.split(sep)] for a separator of one character. *)
Fixpoint split (sep : ascii) (s : string) : list string :=
  match s with
  | EmptyString => [EmptyString]
  | String c s' =>
      if Ascii.eqb c sep then EmptyString :: split sep s'
      else match split sep s' with
           | h :: t => String c h :: t
           | [] => [String c EmptyString]
           end
  end.

(** [s.lower()] on one character: the letters A..Z move to a..z, and of
    the code points from 128 to 255 the capital letters 192..214 and
    216..222 move up by 32 as well; 215 is the multiplication sign. *)
Definition lower_char (c : ascii) : ascii :=
  let n := nat_of_ascii c in
  if ((65 <=? n)%nat && (n <=? 90)%nat)
     || ((192 <=? n)%nat && (n <=? 214)%nat)
     || ((216 <=? n)%nat && (n <=? 222)%nat)
  then ascii_of_nat (n + 32) else c.

Fixpoint lower (s : string) : string :=
  match s with
  | EmptyString => EmptyString
  | String c s' => String (lower_char c) (lower s')
  end.

(** Truthiness of a string and of a list: empty is false. *)
Definition truthy (s : string) : bool := negb (s =? EmptyString).

Definition nonempty {A : Type} (l : list A) : bool :=
  match l with [] => false | _ :: _ => true end.

(** [x in l] for a list of strings. *)
Definition mem (x : string) (l : list string) : bool :=
  existsb (String.eqb x) l.

(** The order of [str]: by code point, one character after another, a
    proper prefix first. *)
Module StrOrder <: TotalLeBool.
Definition t : Type := string.
Definition leb : t -> t -> bool := String.leb.
Definition leb_total : forall a b : t, leb a b = true \/ leb b a = true :=
  String.leb_total.
End StrOrder.

Module StrSort := Sort StrOrder.

(** [sorted(l)] on strings: a merge sort, as Python's is.  The order is
    total and antisymmetric, so the sorted arrangement of a list is unique
    and the choice of the algorithm does not show. *)
Definition sorted (l : list string) : list string := StrSort.sort l.

(** [sep.join(l)] for the empty separator. *)
Definition join (l : list string) : string :=
  fold_right append EmptyString l.

(** The text after the last occurrence of [c] in [s], if [c] occurs. *)
Fixpoint after_last (c : ascii) (s : string) : option string :=
  match s with
  | EmptyString => None
  | String a s' =>
      match after_last c s' with
      | Some r => Some r
      | None => if Ascii.eqb a c then Some s' else None
      end
  end.

End Py.

Import Py.

(** ** The surroundings of a run *)

(** A directory entry: [pathlib]'s [rglob] yields matching entries of any
    kind, regular files and directories alike. *)
#[warnings="-register-all"]
Inductive entry : Type :=
| File (name : string)
| Dir (name : string) (children : list entry).

(** A [pathlib.Path] relative to the working directory, as its parts;
    [Path(".")] has none. *)
Definition path : Type := list string.

(** [str(p)] *)
Definition str (p : path) : string :=
  match p with
  | [] => "."
  | _ :: _ => String.concat "/" p
  end.

(** [p.name], the last part. *)
Definition name_of (p : path) : string := last p EmptyString.

(** A glob pattern made of one star and literal text after it, the only
    shape the scripts use: "*.go", "*_test.go", "*.yaml", "*.yml", "*.json". *)
Inductive pattern : Type := Star (suffix : string).

(** [fnmatch] of a name against such a pattern (case-sensitive, as on POSIX):
    the star takes any text, dots included, the rest must close the name. *)
Definition fnmatch (name : string) (pat : pattern) : bool :=
  match pat with Star suffix => endswith name suffix end.

(** Result of a finished child process: [subprocess.CompletedProcess]. *)
Record CompletedProcess : Type := {
  returncode : Z;
  stdout : string;
  stderr : string
}.

(** The arguments of [client.messages.create]. *)
Record Request : Type := {
  model : string;
  max_tokens : Z;
  system : string;
  user_content : string
}.

(** What a run reads from outside.  Failing operations answer with the text
    [str(e)] of the exception they raise; all of these are instances of
    [Exception] ([OSError], [UnicodeDecodeError], [ValueError], the client
    library's errors). *)
Record World : Type := {
  (** [os.environ.get] *)
  environ : string -> option string;
  (** the entries found below a directory, in the order the file system
      lists them *)
  subtree : path -> list entry;
  (** [open(p, "r")] followed by [f.read()] *)
  open_read : string -> string + string;
  (** [open(p, "w")]: [None] when the file opens, else the error raised *)
  open_write : string -> option string;
  (** [f.write(text)] and the close of the file at the end of the [with]
      block, for a file opened as [p]: [None] when the text is in the file,
      else the error raised (the text cannot be encoded, the disk is full) *)
  write_text : string -> string -> option string;
  (** [os.path.exists] and [Path.exists] *)
  path_exists : string -> bool;
  (** [subprocess.run(argv, capture_output=True, text=True)] without the
      check of the return code: the finished process, or the error raised
      when the child cannot be started *)
  subprocess_run : list string -> CompletedProcess + string;
  (** [client.messages.create(...).content[0].text], or the error raised *)
  messages_create : Request -> string + string
}.

(** What a run does to the outside, in order.  [EvOpenWrite p]: [open(p, "w")]
    succeeded, so the file that [p] names exists and is empty.
    [EvWrite p text]: [text], whole and nothing else, was written through
    that handle and the file closed. *)
Inductive event : Type :=
| EvStdout (text : string)
| EvStderr (text : string)
| EvRglob (directory : string) (pat : pattern)
| EvOpenRead (file : string)
| EvOpenWrite (file : string)
| EvWrite (file : string) (text : string)
| EvExists (file : string)
| EvSubprocess (argv : list string)
| EvMessagesCreate (req : Request).

(** How an action ends: with a value, with an exception that nothing caught,
    or with [sys.exit(code)]. *)
Inductive outcome (A : Type) : Type :=
| Return (a : A)
| Raise (e : string)
| SysExit (code : Z).

Arguments Return {A} a.
Arguments Raise {A} e.
Arguments SysExit {A} code.

(** An action: the events it caused and how it ended. *)
Definition M (A : Type) : Type := list event * outcome A.

Definition ret {A : Type} (a : A) : M A := ([], Return a).

Definition bind {A B : Type} (m : M A) (k : A -> M B) : M B :=
  match m with
  | (t, Return a) => let (t', r) := k a in ((t ++ t')%list, r)
  | (t, Raise e) => (t, Raise e)
  | (t, SysExit c) => (t, SysExit c)
  end.

Definition emit (e : event) : M unit := ([e], Return tt).
Definition raise {A : Type} (e : string) : M A := ([], Raise e).
Definition sys_exit {A : Type} (code : Z) : M A := ([], SysExit code).

Declare Scope py_scope.
Delimit Scope py_scope with py.
Notation "x <- c1 ;; c2" := (bind c1 (fun x => c2))
  (at level 61, c1 at next level, right associativity) : py_scope.
Notation "c1 ;; c2" := (bind c1 (fun _ => c2))
  (at level 61, right associativity) : py_scope.
Local Open Scope py_scope.

(** [for x in l: acc = body(acc, x)] *)
Fixpoint for_each {A S : Type} (l : list A) (body : S -> A -> M S) (acc : S)
  : M S :=
  match l with
  | [] => ret acc
  | x :: l' => acc' <- body acc x ;; for_each l' body acc'
  end.

Definition trace {A : Type} (m : M A) : list event := fst m.
Definition result {A : Type} (m : M A) : outcome A := snd m.

(** The requests a trace sent to the service. *)
Fixpoint requests (t : list event) : list Request :=
  match t with
  | [] => []
  | EvMessagesCreate r :: t' => r :: requests t'
  | _ :: t' => requests t'
  end.

(** Events that touch the file system, start a process or use the network. *)
Definition is_io (e : event) : bool :=
  match e with
  | EvStdout _ | EvStderr _ => false
  | _ => true
  end.

(** Events that write to the diagnostic stream. *)
Definition on_stderr (e : event) : bool :=
  match e with
  | EvStderr _ => true
  | _ => false
  end.

(** [print(s)] and [print(s, file=sys.stderr)]: the text and a newline. *)
Definition print (s : string) : M unit := emit (EvStdout (s ++ nl)).
Definition print_stderr (s : string) : M unit := emit (EvStderr (s ++ nl)).

(** [with open(p, "w") as f: f.write(text)]: the open can fail, and after
    it the write or the close; a failure after the open leaves the file
    truncated, with what was written of the text, if anything. *)
Definition write_file (w : World) (p text : string) : M unit :=
  match open_write w p with
  | Some e => raise e
  | None =>
      emit (EvOpenWrite p) ;;
      match write_text w p text with
      | None => emit (EvWrite p text)
      | Some e => raise e
      end
  end.

(** The name of an entry. *)
Definition entry_name (e : entry) : string :=
  match e with
  | File n => n
  | Dir n _ => n
  end.

(** The entries listed in a directory, as paths. *)
Definition listed (parent : path) (entries : list entry) : list path :=
  map (fun e => (parent ++ [entry_name e])%list) entries.

(** Everything below an entry of [parent], in the order in which [rglob]
    comes to it: nothing for a file; for a directory what it lists, and
    then, directory by directory in the order listed, what lies deeper. *)
Fixpoint below (parent : path) (e : entry) : list path :=
  match e with
  | File _ => []
  | Dir n children =>
      (listed (parent ++ [n]) children
       ++ flat_map (below (parent ++ [n])%list) children)%list
  end.

(** All paths below a directory that lists [entries]: the directory is
    listed first and then descended into. *)
Definition walk (parent : path) (entries : list entry) : list path :=
  (listed parent entries ++ flat_map (below parent) entries)%list.

(** Every entry below a directory, at any depth. *)
Definition descendants (w : World) (directory : path) : list path :=
  walk directory (subtree w directory).

(** [Path(directory).rglob(pat)]: the entries below the directory whose name
    matches. *)
Definition rglob (w : World) (directory : path) (pat : pattern)
  : M (list path) :=
  emit (EvRglob (str directory) pat) ;;
  ret (filter (fun p => fnmatch (name_of p) pat) (descendants w directory)).

(** The two texts [read_file] formats:
    [f"### File: {filepath}\n```go\n{content}\n```\n"] and
    [f"### File: {filepath}\nError reading file: {e}\n"]. *)
Definition fenced_block (filepath content : string) : string :=
  "### File: " ++ filepath ++ nl ++ "```go" ++ nl ++ content ++ nl ++ "```" ++ nl.

Definition error_block (filepath e : string) : string :=
  "### File: " ++ filepath ++ nl ++ "Error reading file: " ++ e ++ nl.

(** [try: body except Exception as e: handler(e)]: the handler takes what
    the body raises; [sys.exit] is no [Exception] and passes. *)
Definition try_except {A : Type} (body : M A) (handler : string -> M A)
  : M A :=
  match body with
  | (t, Raise e) => let (t', r) := handler e in ((t ++ t')%list, r)
  | (t, Return a) => (t, Return a)
  | (t, SysExit c) => (t, SysExit c)
  end.

(** [with open(filepath, "r") as f: content = f.read()] *)
Definition open_and_read (w : World) (filepath : string) : M string :=
  emit (EvOpenRead filepath) ;;
  match open_read w filepath with
  | inl content => ret content
  | inr e => raise e
  end.

(** [read_file], the same text in the three scripts (go_architect.py 66-73,
    go_engineer_reviewer.py 90-97, go_tester.py 93-100). *)
Definition read_file (w : World) (filepath : string) : M string :=
  try_except
    (content <- open_and_read w filepath ;;
     ret (fenced_block filepath content))
    (fun e => ret (error_block filepath e)).

(** The text [read_file] hands back for a path in given surroundings. *)
Definition block (w : World) (filepath : string) : string :=
  match open_read w filepath with
  | inl content => fenced_block filepath content
  | inr e => error_block filepath e
  end.

(** [for filepath in files: code_context += read_file(filepath)], the loop
    each script runs over its lists of files (go_architect.py 114-115,
    go_engineer_reviewer.py 167-168, go_tester.py 132-133 and 139-140). *)
Definition append_files (w : World) (files : list string)
    (code_context : string) : M string :=
  for_each files
    (fun ctx filepath => r <- read_file w filepath ;; ret (ctx ++ r))
    code_context.

(** The last statement of each [main] (go_architect.py 172-177,
    go_engineer_reviewer.py 222-227, go_tester.py 184-189): [what] is
    "Review" in two scripts and "Tests" in the third. *)
Definition route_output (w : World) (what : string) (output : option string)
    (text : string) : M unit :=
  match output with
  | Some p =>
      if truthy p
      then write_file w p text ;;
           print_stderr (what ++ " written to " ++ p)
      else print text
  | None => print text
  end.

(** [Path(s).name] for a path text [s] without a trailing separator. *)
Definition path_name (s : string) : string :=
  match after_last "/" s with
  | Some r => r
  | None => s
  end.

(** [Path(s).suffix]: the name from its last dot on, unless that dot opens
    or closes the name. *)
Definition suffix_of (s : string) : string :=
  let name := path_name s in
  match after_last "." name with
  | Some r =>
      let i := (String.length name - String.length r - 1)%nat in
      if (0 <? i)%nat && (i <? String.length name - 1)%nat
      then String "." r else EmptyString
  | None => EmptyString
  end.

(** [s[1:]] *)
Definition drop_first (s : string) : string :=
  match s with
  | EmptyString => EmptyString
  | String _ r => r
  end.

(** [if files:] on the optional list argparse hands over. *)
Definition files_given (files : option (list string)) : bool :=
  match files with
  | Some l => nonempty l
  | None => false
  end.

Definition files_or_nil (files : option (list string)) : list string :=
  match files with
  | Some l => l
  | None => []
  end.

(** [not os.environ.get(key)]: unset, or set to the empty text. *)
Definition env_missing (w : World) (key : string) : bool :=
  match environ w key with
  | Some v => negb (truthy v)
  | None => true
  end.

(** [client.messages.create(model=..., max_tokens=4096, system=..., messages=
    [{"role": "user", "content": content}])] and [message.content[0].text]. *)
Definition create (w : World) (system_prompt content : string) : M string :=
  let req := {| model := "claude-sonnet-4-20250514";
                max_tokens := 4096;
                system := system_prompt;
                user_content := content |} in
  emit (EvMessagesCreate req) ;;
  match messages_create w req with
  | inl text => ret text
  | inr e => raise e
  end.

(** ** go_architect.py *)

Module Architect.
Section Agent.

Variable w : World.
(** The module constant [SYSTEM_PROMPT]; its text decides nothing. *)
Variable SYSTEM_PROMPT : string.

Definition find_go_files (directory : path) : M (list string) :=
  paths <- rglob w directory (Star ".go") ;;
  ret (sorted (filter (fun s => negb (contains "_test.go" s))
                      (map str paths))).

Definition find_api_specs (directory : path) : M (list string) :=
  specs <- for_each [Star ".yaml"; Star ".yml"; Star ".json"]
             (fun specs pat =>
                paths <- rglob w directory pat ;;
                ret (specs ++
                     filter (fun s => contains "openapi" (lower s)
                                      || contains "swagger" (lower s))
                            (map str paths))%list)
             [] ;;
  let root_spec := str (directory ++ ["openapi.yaml"])%list in
  emit (EvExists root_spec) ;;
  if path_exists w root_spec && negb (mem root_spec specs)
  then ret (specs ++ [root_spec])%list
  else ret specs.

(** The list [go_files] of [run_review] (lines 104-107). *)
Definition go_files (files : option (list string)) : M (list string) :=
  if files_given files
  then ret (filter (fun f => endswith f ".go") (files_or_nil files))
  else find_go_files [].

(** One turn of the loop over [specs] (lines 121-128). *)
Definition add_spec (code_context spec : string) : M string :=
  emit (EvOpenRead spec) ;;
  match open_read w spec with
  | inl content =>
      let ext := suffix_of spec in
      ret (code_context ++ "### File: " ++ spec ++ nl ++ "```"
           ++ drop_first ext ++ nl ++ content ++ nl ++ "```" ++ nl)
  | inr e =>
      ret (code_context ++ "### File: " ++ spec ++ nl
           ++ "Error reading file: " ++ e ++ nl)
  end.

(** The text [code_context] of [run_review] once both loops are through
    (lines 113-128). *)
Definition code_context (go_files : list string) : M string :=
  ctx <- append_files w go_files ("# Code to Review" ++ nl ++ nl) ;;
  specs <- find_api_specs [] ;;
  if nonempty specs
  then for_each specs add_spec (ctx ++ nl ++ "# API Specifications" ++ nl ++ nl)
  else ret ctx.

(** [anthropic.Anthropic()] builds the client object and sends nothing. *)
Definition run_review (files : option (list string)) : M string :=
  gf <- go_files files ;;
  if negb (nonempty gf) then ret "No Go files found to review."
  else
    ctx <- code_context gf ;;
    create w SYSTEM_PROMPT
      ("Please review the following Go API code for architectural best practices:"
       ++ nl ++ nl ++ ctx).

Record Args : Type := { files : option (list string); output : option string }.

Definition main (args : Args) : M unit :=
  if env_missing w "ANTHROPIC_API_KEY"
  then print "Error: ANTHROPIC_API_KEY environment variable not set" ;;
       sys_exit 1
  else
    print_stderr ("Running Go Architecture Review..." ++ nl) ;;
    review <- run_review (files args) ;;
    route_output w "Review" (output args) review.

End Agent.
End Architect.

(** ** go_engineer_reviewer.py *)

Module Reviewer.
Section Agent.

Variable w : World.
Variable SYSTEM_PROMPT : string.

(** [subprocess.run(..., check=True)] raises [CalledProcessError] on a
    return code other than 0; the [except] clause takes that error and no
    other, so a child that cannot be started raises through. *)
Definition get_git_diff (base : string) : M string :=
  let argv := ["git"; "diff"; base; "--"; "*.go"] in
  emit (EvSubprocess argv) ;;
  match subprocess_run w argv with
  | inl p =>
      if (returncode p =? 0)%Z then ret (stdout p)
      else ret ("Error getting git diff: " ++ stderr p)
  | inr e => raise e
  end.

Definition get_changed_files (base : string) : M (list string) :=
  let argv := ["git"; "diff"; "--name-only"; base; "--"; "*.go"] in
  emit (EvSubprocess argv) ;;
  match subprocess_run w argv with
  | inl p =>
      if (returncode p =? 0)%Z
      then ret (map strip
                    (filter (fun f => truthy (strip f))
                            (split LF (strip (stdout p)))))
      else ret []
  | inr e => raise e
  end.

Definition find_go_files (directory : path) : M (list string) :=
  paths <- rglob w directory (Star ".go") ;;
  ret (sorted (map str paths)).

(** The list [go_files] of [run_review] (lines 158-161). *)
Definition go_files (files : option (list string)) : M (list string) :=
  if files_given files
  then ret (filter (fun f => endswith f ".go") (files_or_nil files))
  else find_go_files [].

(** One turn of the loop over [changed_files] (lines 153-155). *)
Definition add_changed (code_context filepath : string) : M string :=
  emit (EvExists filepath) ;;
  if path_exists w filepath
  then r <- read_file w filepath ;; ret (code_context ++ r)
  else ret code_context.

Definition request (code_context : string) : M string :=
  create w SYSTEM_PROMPT
    ("Please conduct a thorough code review:" ++ nl ++ nl ++ code_context).

Definition run_review (files : option (list string)) (use_diff : bool)
    (base : string) : M string :=
  if use_diff then
    diff <- get_git_diff base ;;
    if negb (truthy diff) || startswith diff "Error"
    then ret ("No changes to review or error: " ++ diff)
    else
      let ctx := "# Git Diff (against " ++ base ++ ")" ++ nl ++ nl
                 ++ "```diff" ++ nl ++ diff ++ nl ++ "```" ++ nl in
      changed_files <- get_changed_files base ;;
      ctx <- (if nonempty changed_files
              then for_each changed_files add_changed
                     (ctx ++ nl ++ "# Full Files (for context)" ++ nl ++ nl)
              else ret ctx) ;;
      request ctx
  else
    gf <- go_files files ;;
    if negb (nonempty gf) then ret "No Go files found to review."
    else
      ctx <- append_files w gf ("# Code to Review" ++ nl ++ nl) ;;
      request ctx.

Record Args : Type := {
  files : option (list string);
  diff : bool;
  base : string;
  output : option string
}.

Definition main (args : Args) : M unit :=
  if env_missing w "ANTHROPIC_API_KEY"
  then print "Error: ANTHROPIC_API_KEY environment variable not set" ;;
       sys_exit 1
  else
    print_stderr ("Running Go Code Review..." ++ nl) ;;
    review <- run_review (files args) (diff args) (base args) ;;
    route_output w "Review" (output args) review.

End Agent.
End Reviewer.

(** ** go_tester.py *)

Module Tester.
Section Agent.

Variable w : World.
Variable SYSTEM_PROMPT : string.

Definition find_go_files (directory : path) : M (list string) :=
  paths <- rglob w directory (Star ".go") ;;
  ret (sorted (filter (fun s => negb (contains "_test.go" s))
                      (map str paths))).

Definition find_test_files (directory : path) : M (list string) :=
  paths <- rglob w directory (Star "_test.go") ;;
  ret (sorted (map str paths)).

(** The list [go_files] of [run_test_generation] (lines 122-125). *)
Definition go_files (files : option (list string)) : M (list string) :=
  if files_given files
  then ret (filter (fun f => endswith f ".go" && negb (contains "_test.go" f))
                   (files_or_nil files))
  else find_go_files [].

(** The text [code_context] of [run_test_generation] once both loops are
    through (lines 131-140). *)
Definition code_context (go_files : list string) : M string :=
  ctx <- append_files w go_files ("# Source Code to Test" ++ nl ++ nl) ;;
  existing_tests <- find_test_files [] ;;
  if nonempty existing_tests
  then append_files w existing_tests
         (ctx ++ nl ++ "# Existing Tests (for reference)" ++ nl ++ nl)
  else ret ctx.

Definition run_test_generation (files : option (list string)) : M string :=
  gf <- go_files files ;;
  if negb (nonempty gf) then ret "No Go files found to generate tests for."
  else
    ctx <- code_context gf ;;
    create w SYSTEM_PROMPT
      ("Please generate comprehensive tests for the following Go code:"
       ++ nl ++ nl ++ ctx ++ nl ++ nl
       ++ "Provide complete, runnable test files.").

Record Args : Type := { files : option (list string); output : option string }.

Definition main (args : Args) : M unit :=
  if env_missing w "ANTHROPIC_API_KEY"
  then print "Error: ANTHROPIC_API_KEY environment variable not set" ;;
       sys_exit 1
  else
    print_stderr ("Generating Go Tests..." ++ nl) ;;
    tests <- run_test_generation (files args) ;;
    route_output w "Tests" (output args) tests.

End Agent.
End Tester.

(** ** Concrete surroundings for the examples

    A working directory of two sources and the directories and files named
    below; [a.go] and [b.go] can be read, nothing else can. *)

Definition example_read (p : string) : string + string :=
  if p =? "a.go" then inl "package a"
  else if p =? "b.go" then inl "package b"
  else inr ("[Errno 2] No such file or directory: '" ++ p ++ "'").

Definition example_world (key : option string) (tree : list entry)
    (git : list string -> CompletedProcess + string) : World :=
  {| environ := fun k => if k =? "ANTHROPIC_API_KEY" then key else None;
     subtree := fun d => match d with [] => tree | _ :: _ => [] end;
     open_read := example_read;
     open_write := fun _ => None;
     write_text := fun _ _ => None;
     path_exists := fun p => (p =? "a.go") || (p =? "b.go");
     subprocess_run := git;
     messages_create := fun _ => inl "LGTM" |}.

(** [git] outside a repository: both commands end with code 128. *)
Definition git_fails (argv : list string) : CompletedProcess + string :=
  inl {| returncode := 128;
         stdout := EmptyString;
         stderr := "fatal: not a git repository" ++ nl |}.

(** [git] with a change in [a.go] and the removal of [gone.go]. *)
Definition git_changes (argv : list string) : CompletedProcess + string :=
  if existsb (String.eqb "--name-only") argv
  then inl {| returncode := 0;
              stdout := "a.go" ++ nl ++ "gone.go" ++ nl;
              stderr := EmptyString |}
  else inl {| returncode := 0;
              stdout := "diff --git a/a.go b/a.go" ++ nl;
              stderr := EmptyString |}.

Definition two_sources : list entry := [File "b.go"; File "a.go"].

Definition sources_and_tests : list entry :=
  [File "main.go"; Dir "pkg" [File "util_test.go"; File "util.go"]].

Definition no_sources : list entry :=
  [File "README.md"; Dir "docs" [File "notes.txt"]].

(** Outside a repository, with a key in the environment. *)
Definition outside_repo : World :=
  example_world (Some "sk-test") two_sources git_fails.

(** In a repository with changes, with a key in the environment. *)
Definition changed_repo : World :=
  example_world (Some "sk-test") two_sources git_changes.

(** No key in the environment. *)
Definition no_key : World := example_world None two_sources git_fails.

(** A project with a test next to its sources. *)
Definition with_tests : World :=
  example_world (Some "sk-test") sources_and_tests git_fails.

(** A project without a Go source. *)
Definition without_go : World :=
  example_world (Some "sk-test") no_sources git_fails.

(** ** What a trace shows *)

(** Events that only look at the surroundings: a scan of a directory, the
    opening of a file for reading, a test for existence, a child process. *)
Definition is_probe (e : event) : bool :=
  match e with
  | EvRglob _ _ | EvOpenRead _ | EvExists _ | EvSubprocess _ => true
  | _ => false
  end.

(** Events that write to standard output. *)
Definition on_stdout (e : event) : bool :=
  match e with
  | EvStdout _ => true
  | _ => false
  end.

(** Events that open a file for writing or write to it. *)
Definition is_write (e : event) : bool :=
  match e with
  | EvOpenWrite _ | EvWrite _ _ => true
  | _ => false
  end.

(** The path under which an event opens or writes a file. *)
Definition write_target (e : event) : option string :=
  match e with
  | EvOpenWrite p | EvWrite p _ => Some p
  | _ => None
  end.

(** An action that does nothing but look around. *)
Definition probing {A : Type} (m : M A) : Prop :=
  forallb is_probe (trace m) = true.

(** An action that looks around and then sends at most one request, with
    which it ends. *)
Definition gathers_then_asks {A : Type} (m : M A) : Prop :=
  exists probes : list event,
    forallb is_probe probes = true
    /\ (trace m = probes
        \/ exists req, trace m = (probes ++ [EvMessagesCreate req])%list).

(** The block one turn of the architect's loop over [specs] adds for a path
    (go_architect.py 122-128). *)
Definition spec_block (w : World) (spec : string) : string :=
  match open_read w spec with
  | inl content =>
      "### File: " ++ spec ++ nl ++ "```" ++ drop_first (suffix_of spec) ++ nl
      ++ content ++ nl ++ "```" ++ nl
  | inr e => error_block spec e
  end.

(** What [git diff --name-only] prints for a list of names: each name and a
    newline. *)
Definition lines_of (names : list string) : string :=
  join (map (fun n => n ++ nl) names).

(** A name that is not empty, neither starts nor ends with white space and
    holds no newline. *)
Definition clean_name (n : string) : bool :=
  truthy n && (lstrip n =? n) && (rstrip n =? n) && negb (contains nl n).

(** A path mentions an API description: [openapi] or [swagger], in any
    case. *)
Definition mentions_api (s : string) : bool :=
  contains "openapi" (lower s) || contains "swagger" (lower s).

(** What the three scans of [find_api_specs] keep, in the order of the
    scans (go_architect.py 88-91). *)
Definition scanned_specs (w : World) (directory : path) : list string :=
  flat_map
    (fun suf =>
       filter mentions_api
         (map str (filter (fun p => fnmatch (name_of p) (Star suf))
                          (descendants w directory))))
    [".yaml"; ".yml"; ".json"].

(** A project with API descriptions: one at the root, one found by name in
    a subdirectory next to files that are none.  The directory [/] cannot
    be written to, and the file [latin1.md] does not take the text. *)
Definition spec_world : World :=
  {| environ := fun k => if k =? "ANTHROPIC_API_KEY" then Some "sk-test" else None;
     subtree := fun d =>
       match d with
       | [] => [File "main.go"; File "openapi.yaml";
                Dir "api" [File "Swagger.json"; File "schema.json";
                           File "notes.yml"]]
       | _ :: _ => []
       end;
     open_read := fun p =>
       if p =? "main.go" then inl "package main"
       else if p =? "openapi.yaml" then inl "openapi: 3.0.0"
       else if p =? "api/Swagger.json" then inl "{}"
       else inr ("[Errno 13] Permission denied: '" ++ p ++ "'");
     open_write := fun p =>
       if p =? "/review.md" then Some "[Errno 13] Permission denied: '/review.md'"
       else None;
     write_text := fun p _ =>
       if p =? "latin1.md"
       then Some "'latin-1' codec can't encode character"
       else None;
     path_exists := fun p =>
       existsb (String.eqb p)
         ["main.go"; "openapi.yaml"; "api"; "api/Swagger.json";
          "api/schema.json"; "api/notes.yml"];
     subprocess_run := git_fails;
     messages_create := fun _ => inl "LGTM" |}.


(** The service is out of reach. *)
Definition offline_world : World :=
  {| environ := environ outside_repo;
     subtree := subtree outside_repo;
     open_read := open_read outside_repo;
     open_write := open_write outside_repo;
     write_text := write_text outside_repo;
     path_exists := path_exists outside_repo;
     subprocess_run := git_changes;
     messages_create := fun _ => inr "Connection error." |}.

(** What each [main] does once it has found the key: the banner on the
    diagnostic stream, the pipeline, the last step (go_architect.py 168-177,
    go_engineer_reviewer.py 218-227, go_tester.py 180-189). *)
Definition after_key_check (w : World) (banner what : string)
    (run : M string) (output : option string) : M unit :=
  print_stderr (banner ++ nl) ;;
  text <- run ;;
  route_output w what output text.


(** In lexicographic order: every element is at most each later one. *)
Definition lex_sorted (l : list string) : Prop :=
  StronglySorted (fun a b => String.leb a b = true) l.

(** * Properties *)

(** ** Text *)

Example startswith_error :
  startswith "Error getting git diff: fatal" "Error" = true
  /\ startswith "diff --git a/a.go b/a.go" "Error" = false.
Proof. split; reflexivity. Qed.

Example endswith_go :
  endswith "pkg/util.go" ".go" = true
  /\ endswith "go" ".go" = false
  /\ endswith "pkg.go/readme" ".go" = false.
Proof. repeat split. Qed.

Example contains_marker :
  contains "_test.go" "pkg/util_test.go" = true
  /\ contains "_test.go" "pkg/_test.go.d/util.go" = true
  /\ contains "_test.go" "pkg/util.go" = false.
Proof. repeat split. Qed.

Example changed_names :
  map strip
      (filter (fun f => truthy (strip f))
              (split LF (strip ("a.go" ++ nl ++ "pkg/b.go" ++ nl))))
  = ["a.go"; "pkg/b.go"]
  /\ map strip (filter (fun f => truthy (strip f)) (split LF (strip EmptyString)))
     = [].
Proof. split; reflexivity. Qed.

Example sorted_paths :
  sorted ["pkg/util_test.go"; "main.go"; "pkg/util.go"; "cmd/x.go"]
  = ["cmd/x.go"; "main.go"; "pkg/util.go"; "pkg/util_test.go"].
Proof. reflexivity. Qed.

Example suffixes :
  suffix_of "api/openapi.yaml" = ".yaml"
  /\ suffix_of "swagger.v2.json" = ".json"
  /\ suffix_of "specs/.yaml" = EmptyString
  /\ drop_first (suffix_of "api/openapi.yaml") = "yaml".
Proof. repeat split. Qed.

Example walk_tree :
  map str (walk [] sources_and_tests)
  = ["main.go"; "pkg"; "pkg/util_test.go"; "pkg/util.go"]
  /\ map str (walk ["src"] [File "a.go"]) = ["src/a.go"]
  /\ map str (walk [] [Dir "api" [File "swagger.yaml"; Dir "v2" [File "x.yaml"]];
                       File "openapi.yaml"])
     = ["api"; "openapi.yaml"; "api/swagger.yaml"; "api/v2"; "api/v2/x.yaml"].
Proof. repeat split. Qed.

Example white_space_and_case :
  map isspace [" "%char; "010"%char; "028"%char; "133"%char; "160"%char;
               "a"%char; "127"%char; "134"%char; "255"%char]
  = [true; true; true; true; true; false; false; false; false]
  /\ map lower_char ["A"%char; "Z"%char; "a"%char; "192"%char; "214"%char;
                     "215"%char; "222"%char; "223"%char; "0"%char]
     = ["a"%char; "z"%char; "a"%char; "224"%char; "246"%char;
        "215"%char; "254"%char; "223"%char; "0"%char].
Proof. split; reflexivity. Qed.

Lemma append_nil_r (s : string) : s ++ EmptyString = s.
Proof. induction s as [|c s IH]; simpl; [reflexivity | now rewrite IH]. Qed.

Lemma append_assoc (a b c : string) : (a ++ b) ++ c = a ++ (b ++ c).
Proof. induction a as [|x a IH]; simpl; [reflexivity | now rewrite IH]. Qed.

Lemma prefix_app (p s : string) : prefix p (p ++ s) = true.
Proof.
  induction p as [|c p IH]; simpl.
  - now destruct s.
  - destruct (ascii_dec c c) as [_|N]; [exact IH | now elim N].
Qed.

Lemma contains_app_l (sub a s : string) :
  contains sub s = true -> contains sub (a ++ s) = true.
Proof.
  intros H. induction a as [|c a IH]; simpl; [exact H|].
  rewrite IH. apply orb_true_r.
Qed.

Lemma contains_intro (sub a b : string) : contains sub (a ++ sub ++ b) = true.
Proof.
  apply contains_app_l. destruct sub as [|c sub].
  - now destruct b.
  - change (contains (String c sub) (String c sub ++ b))
      with (prefix (String c sub) (String c sub ++ b)
            || contains (String c sub) (sub ++ b)).
    now rewrite prefix_app.
Qed.

Lemma startswith_spec (s p : string) :
  startswith s p = true <-> exists b, s = p ++ b.
Proof.
  unfold startswith. split.
  - revert s. induction p as [|c p IH]; intros s H.
    + now exists s.
    + destruct s as [|d s]; [discriminate|]. simpl in H.
      destruct (ascii_dec c d) as [<-|]; [|discriminate].
      destruct (IH s H) as [b ->]. now exists b.
  - intros [b ->]. apply prefix_app.
Qed.

Lemma contains_spec (sub s : string) :
  contains sub s = true <-> exists a b, s = a ++ sub ++ b.
Proof.
  split.
  - induction s as [|c s IH]; cbn [contains]; intros H;
      apply orb_true_iff in H as [H|H]; try discriminate.
    + apply startswith_spec in H as [b E]. now exists EmptyString, b.
    + apply startswith_spec in H as [b E]. now exists EmptyString, b.
    + destruct (IH H) as [a [b ->]]. now exists (String c a), b.
  - intros [a [b ->]]. apply contains_intro.
Qed.

Lemma endswith_refl (s : string) : endswith s s = true.
Proof. destruct s; cbn [endswith]; now rewrite String.eqb_refl. Qed.

Lemma endswith_app_l (a s suf : string) :
  endswith s suf = true -> endswith (a ++ s) suf = true.
Proof.
  intros H. induction a as [|c a IH]; simpl; [exact H|].
  rewrite IH. apply orb_true_r.
Qed.

Lemma endswith_spec (s suf : string) :
  endswith s suf = true <-> exists a, s = a ++ suf.
Proof.
  split.
  - induction s as [|c s IH]; cbn [endswith].
    + rewrite orb_false_r. intros H. apply String.eqb_eq in H.
      exists EmptyString. exact H.
    + intros H. apply orb_true_iff in H as [H|H].
      * apply String.eqb_eq in H. exists EmptyString. exact H.
      * destruct (IH H) as [a ->]. now exists (String c a).
  - intros [a ->]. apply endswith_app_l, endswith_refl.
Qed.

(** A text that holds a slash is not the end of a text that holds none. *)
Lemma endswith_past_slash (a n suf : string) :
  contains "/" suf = false ->
  endswith (a ++ String "/" n) suf = endswith n suf.
Proof.
  intros Hsuf.
  assert (Hne : forall b, (b ++ String "/" n =? suf) = false).
  { intros b. apply String.eqb_neq. intros E.
    rewrite <- E in Hsuf.
    pose proof (contains_intro "/" b n) as C.
    change ("/" ++ n) with (String "/" n) in C.
    congruence. }
  induction a as [|c a IH].
  - change ((EmptyString ++ String "/" n =? suf) || endswith n suf
            = endswith n suf).
    now rewrite Hne.
  - change ((String c a ++ String "/" n =? suf)
            || endswith (a ++ String "/" n) suf = endswith n suf).
    now rewrite Hne, IH.
Qed.

Lemma concat_snoc (sep : string) (l : list string) (x : string) :
  l <> [] ->
  String.concat sep (l ++ [x]) = String.concat sep l ++ sep ++ x.
Proof.
  induction l as [|y l IH]; intros Hl; [now elim Hl|].
  destruct l as [|z l].
  - reflexivity.
  - change (String.concat sep ((y :: z :: l) ++ [x]))
      with (y ++ sep ++ String.concat sep ((z :: l) ++ [x])).
    rewrite IH by discriminate.
    change (String.concat sep (y :: z :: l))
      with (y ++ sep ++ String.concat sep (z :: l)).
    now rewrite !append_assoc.
Qed.

(** [rglob] tests the name, the scripts test the whole path: for the
    extension the two agree. *)
Lemma endswith_go_name (p : path) :
  endswith (str p) ".go" = endswith (name_of p) ".go".
Proof.
  destruct p as [|x p]; [reflexivity|].
  destruct (@exists_last _ (x :: p)) as [q [n E]]; [discriminate|].
  rewrite E. unfold name_of. rewrite last_last.
  destruct q as [|y q]; [reflexivity|].
  unfold str. change ((y :: q) ++ [n])%list with (y :: (q ++ [n]))%list.
  change (y :: (q ++ [n]))%list with ((y :: q) ++ [n])%list.
  rewrite concat_snoc by discriminate.
  change ("/" ++ n) with (String "/" n).
  destruct ((y :: q) ++ [n])%list eqn:El; [destruct q; discriminate|].
  now apply endswith_past_slash.
Qed.

(** ** Order and sorting *)

Lemma ascii_compare_lt_trans (a b c : ascii) :
  Ascii.compare a b = Lt -> Ascii.compare b c = Lt -> Ascii.compare a c = Lt.
Proof.
  unfold Ascii.compare. rewrite !N.compare_lt_iff. apply N.lt_trans.
Qed.

Lemma compare_lt_trans (s1 s2 s3 : string) :
  String.compare s1 s2 = Lt -> String.compare s2 s3 = Lt ->
  String.compare s1 s3 = Lt.
Proof.
  revert s2 s3.
  induction s1 as [|a s1 IH]; intros [|b s2] [|c s3]; simpl;
    try congruence.
  destruct (Ascii.compare a b) eqn:Eab; try discriminate;
    destruct (Ascii.compare b c) eqn:Ebc; try discriminate; intros H12 H23.
  - apply Ascii.compare_eq_iff in Eab, Ebc. subst.
    assert (E : Ascii.compare c c = Eq)
      by (unfold Ascii.compare; apply N.compare_refl).
    rewrite E. eauto.
  - apply Ascii.compare_eq_iff in Eab. subst. now rewrite Ebc.
  - apply Ascii.compare_eq_iff in Ebc. subst. now rewrite Eab.
  - now rewrite (ascii_compare_lt_trans a b c).
Qed.

Lemma leb_trans (s1 s2 s3 : string) :
  String.leb s1 s2 = true -> String.leb s2 s3 = true ->
  String.leb s1 s3 = true.
Proof.
  unfold String.leb.
  destruct (String.compare s1 s2) eqn:E12; try discriminate;
    destruct (String.compare s2 s3) eqn:E23; try discriminate; intros _ _.
  - apply String.compare_eq_iff in E12. subst s2. now rewrite E23.
  - apply String.compare_eq_iff in E12. subst s2. now rewrite E23.
  - apply String.compare_eq_iff in E23. subst s3. now rewrite E12.
  - now rewrite (compare_lt_trans s1 s2 s3).
Qed.

Lemma sorted_lex_sorted (l : list string) : lex_sorted (sorted l).
Proof.
  apply StrSort.StronglySorted_sort.
  intros a b c Hab Hbc. exact (leb_trans a b c Hab Hbc).
Qed.

Lemma sorted_perm (l : list string) : Permutation (sorted l) l.
Proof. symmetry. apply StrSort.Permuted_sort. Qed.

Lemma filter_none {A : Type} (f : A -> bool) (l : list A) :
  (forall x, In x l -> f x = false) -> filter f l = [].
Proof.
  induction l as [|x l IH]; intros H; simpl; [reflexivity|].
  rewrite (H x (or_introl eq_refl)). apply IH.
  intros y Hy. apply H. now right.
Qed.

Lemma filter_filter_and {A : Type} (f g : A -> bool) (l : list A) :
  filter f (filter g l) = filter (fun x => g x && f x) l.
Proof.
  induction l as [|x l IH]; simpl; [reflexivity|].
  destruct (g x); simpl; [destruct (f x)|]; now rewrite IH.
Qed.

(** ** Actions *)

Lemma read_file_run (w : World) (filepath : string) :
  read_file w filepath = ([EvOpenRead filepath], Return (block w filepath)).
Proof.
  unfold read_file, open_and_read, block.
  now destruct (open_read w filepath).
Qed.

Lemma append_files_run (w : World) (files : list string) (ctx : string) :
  append_files w files ctx
  = (map EvOpenRead files, Return (ctx ++ join (map (block w) files))).
Proof.
  unfold append_files. revert ctx.
  induction files as [|f files IH]; intros ctx.
  - simpl. unfold ret. now rewrite append_nil_r.
  - cbn [for_each map join fold_right]. rewrite read_file_run.
    cbn [bind ret app]. rewrite IH. cbn [app]. now rewrite append_assoc.
Qed.

Lemma bind_return {A B : Type} (t : list event) (a : A) (k : A -> M B) :
  bind (t, Return a) k = ((t ++ trace (k a))%list, result (k a)).
Proof. unfold bind, trace, result. now destruct (k a). Qed.

Lemma join_app (l1 l2 : list string) : join (l1 ++ l2) = join l1 ++ join l2.
Proof.
  induction l1 as [|x l1 IH]; simpl; [reflexivity|].
  now rewrite IH, append_assoc.
Qed.

Lemma requests_app (t1 t2 : list event) :
  requests (t1 ++ t2) = (requests t1 ++ requests t2)%list.
Proof.
  induction t1 as [|e t1 IH]; simpl; [reflexivity|].
  destruct e; simpl; now rewrite IH.
Qed.

Lemma requests_reads (files : list string) :
  requests (map EvOpenRead files) = [].
Proof. induction files; simpl; auto. Qed.

(** ** Rendering one file and many *)

Lemma try_except_returns {A : Type} (body : M A) (handler : string -> M A) :
  (forall c, result body <> SysExit c) ->
  (forall e, exists a, result (handler e) = Return a) ->
  exists a, result (try_except body handler) = Return a.
Proof.
  intros Hexit Hhandler. destruct body as [t [a|e|c]].
  - now exists a.
  - cbn [try_except]. destruct (Hhandler e) as [a Ha].
    destruct (handler e) as [t' r]. cbn [result snd] in *. now exists a.
  - now elim (Hexit c).
Qed.

(** C10.  [read_file] is total: for every path, in all surroundings, it
    opens the file once and returns a text; what the body of its [try]
    raises, the [except] clause takes.  The text is the header
    "### File: <path>" followed by the content between the fence lines
    "```go" and "```" when the read succeeds, and the header followed by the
    line "Error reading file: <error>" otherwise.  So the loop over a list
    of files ends normally for every list. *)
Theorem C10_read_file_total (w : World) (filepath : string) :
  (exists s : string,
     read_file w filepath = ([EvOpenRead filepath], Return s)
     /\ ((exists content,
            open_read w filepath = inl content
            /\ s = "### File: " ++ filepath ++ nl ++ "```go" ++ nl ++ content
                   ++ nl ++ "```" ++ nl)
         \/ (exists e,
               open_read w filepath = inr e
               /\ s = "### File: " ++ filepath ++ nl
                      ++ "Error reading file: " ++ e ++ nl)))
  /\ (forall files code_context,
        exists s, result (append_files w files code_context) = Return s).
Proof.
  split.
  - destruct (try_except_returns
                (content <- open_and_read w filepath ;;
                 ret (fenced_block filepath content))
                (fun e => ret (error_block filepath e))) as [s Hs].
    + intros c. unfold open_and_read.
      destruct (open_read w filepath); discriminate.
    + intros e. now eexists.
    + exists s. fold (read_file w filepath) in Hs.
      rewrite read_file_run in Hs |- *. cbn [result snd] in Hs.
      injection Hs as <-. split; [reflexivity|].
      unfold block. destruct (open_read w filepath) as [content|e].
      * left. now exists content.
      * right. now exists e.
  - intros files code_context. rewrite append_files_run. now eexists.
Qed.

Lemma C10_read_file_total_witness :
  read_file outside_repo "a.go"
  = ([EvOpenRead "a.go"],
     Return ("### File: " ++ "a.go" ++ nl ++ "```go" ++ nl ++ "package a" ++ nl
             ++ "```" ++ nl))
  /\ read_file outside_repo "missing.go"
     = ([EvOpenRead "missing.go"],
        Return ("### File: " ++ "missing.go" ++ nl ++ "Error reading file: "
                ++ "[Errno 2] No such file or directory: 'missing.go'" ++ nl)).
Proof.
  split.
  - destruct (C10_read_file_total outside_repo "a.go")
      as [[s [E [[c [Hc Hs]]|[e [He Hs]]]]] _].
    + rewrite E, Hs. injection Hc as <-. reflexivity.
    + discriminate He.
  - destruct (C10_read_file_total outside_repo "missing.go")
      as [[s [E [[c [Hc Hs]]|[e [He Hs]]]]] _].
    + discriminate Hc.
    + rewrite E, Hs. injection He as <-. reflexivity.
Defined.

(** C5.  When one file of the list cannot be read and the others can, the
    loop over the list runs to its end: the unreadable file contributes the
    header with its path and the line "Error reading file: ..." in its
    place, every other file its full fenced block, in the order of the
    list. *)
Theorem C5_unreadable_file_isolated (w : World) (before after : list string)
    (bad e code_context : string) (content : string -> string) :
  open_read w bad = inr e ->
  (forall f, In f (before ++ after) -> open_read w f = inl (content f)) ->
  append_files w (before ++ bad :: after) code_context
  = (map EvOpenRead (before ++ bad :: after),
     Return (code_context
             ++ join (map (fun f => fenced_block f (content f)) before)
             ++ ("### File: " ++ bad ++ nl ++ "Error reading file: " ++ e ++ nl)
             ++ join (map (fun f => fenced_block f (content f)) after))).
Proof.
  intros Hbad Hok. rewrite append_files_run.
  do 2 f_equal. f_equal.
  rewrite map_app, join_app. cbn [map join fold_right].
  assert (Hmap : forall l, (forall f, In f l -> In f (before ++ after)) ->
            map (block w) l = map (fun f => fenced_block f (content f)) l).
  { intros l Hl. apply map_ext_in. intros f Hf. unfold block.
    now rewrite (Hok f (Hl f Hf)). }
  rewrite (Hmap before) by (intros; apply in_or_app; now left).
  rewrite (Hmap after) by (intros; apply in_or_app; now right).
  unfold block at 1. rewrite Hbad. unfold error_block.
  now rewrite !append_assoc.
Qed.

Lemma C5_unreadable_file_isolated_witness :
  append_files outside_repo ["a.go"; "missing.go"; "b.go"] ("# Code to Review" ++ nl ++ nl)
  = ([EvOpenRead "a.go"; EvOpenRead "missing.go"; EvOpenRead "b.go"],
     Return ("# Code to Review" ++ nl ++ nl
             ++ "### File: a.go" ++ nl ++ "```go" ++ nl ++ "package a" ++ nl
             ++ "```" ++ nl
             ++ "### File: missing.go" ++ nl
             ++ "Error reading file: [Errno 2] No such file or directory: 'missing.go'"
             ++ nl
             ++ "### File: b.go" ++ nl ++ "```go" ++ nl ++ "package b" ++ nl
             ++ "```" ++ nl)).
Proof.
  refine (eq_trans
            (C5_unreadable_file_isolated outside_repo ["a.go"] ["b.go"]
               "missing.go"
               "[Errno 2] No such file or directory: 'missing.go'"
               ("# Code to Review" ++ nl ++ nl)
               (fun f => if f =? "a.go" then "package a" else "package b")
               eq_refl _) eq_refl).
  intros f [<-|[<-|[]]]; reflexivity.
Defined.

(** ** The diff mode of the reviewer *)

Lemma truthy_true (s : string) : s <> EmptyString -> truthy s = true.
Proof. intros H. unfold truthy. apply String.eqb_neq in H. now rewrite H. Qed.


Lemma get_changed_files_trace (w : World) (base : string) :
  exists o, Reviewer.get_changed_files w base
            = ([EvSubprocess ["git"; "diff"; "--name-only"; base; "--"; "*.go"]],
               o).
Proof.
  unfold Reviewer.get_changed_files.
  destruct (subprocess_run w
              ["git"; "diff"; "--name-only"; base; "--"; "*.go"]) as [q|e].
  - destruct (returncode q =? 0)%Z; eexists; reflexivity.
  - eexists; reflexivity.
Qed.

(** C1, as the code has it.  When the diff command ends with a return code
    other than 0, [get_git_diff] returns "Error getting git diff: " followed
    by the command's diagnostic output, and [run_review] in diff mode returns
    "No changes to review or error: " followed by that text as its result:
    it starts no second command, reads no file and sends no request. *)
Theorem C1_diff_failure_ends_review (w : World) (prompt : string)
    (files : option (list string)) (base : string) (p : CompletedProcess) :
  subprocess_run w ["git"; "diff"; base; "--"; "*.go"] = inl p ->
  returncode p <> 0%Z ->
  Reviewer.get_git_diff w base
  = ([EvSubprocess ["git"; "diff"; base; "--"; "*.go"]],
     Return ("Error getting git diff: " ++ stderr p))
  /\ Reviewer.run_review w prompt files true base
     = ([EvSubprocess ["git"; "diff"; base; "--"; "*.go"]],
        Return ("No changes to review or error: "
                ++ "Error getting git diff: " ++ stderr p))
  /\ requests (trace (Reviewer.run_review w prompt files true base)) = [].
Proof.
  intros Hrun Hrc.
  assert (Hdiff : Reviewer.get_git_diff w base
                  = ([EvSubprocess ["git"; "diff"; base; "--"; "*.go"]],
                     Return ("Error getting git diff: " ++ stderr p))).
  { unfold Reviewer.get_git_diff. rewrite Hrun.
    apply Z.eqb_neq in Hrc. now rewrite Hrc. }
  assert (Hrev : Reviewer.run_review w prompt files true base
                 = ([EvSubprocess ["git"; "diff"; base; "--"; "*.go"]],
                    Return ("No changes to review or error: "
                            ++ "Error getting git diff: " ++ stderr p))).
  { unfold Reviewer.run_review. rewrite Hdiff. reflexivity. }
  repeat split; [exact Hdiff | exact Hrev | now rewrite Hrev].
Qed.

Lemma C1_diff_failure_ends_review_witness :
  Reviewer.get_git_diff outside_repo "main"
  = ([EvSubprocess ["git"; "diff"; "main"; "--"; "*.go"]],
     Return ("Error getting git diff: fatal: not a git repository" ++ nl))
  /\ Reviewer.run_review outside_repo "prompt" None true "main"
     = ([EvSubprocess ["git"; "diff"; "main"; "--"; "*.go"]],
        Return ("No changes to review or error: "
                ++ "Error getting git diff: fatal: not a git repository" ++ nl))
  /\ requests (trace (Reviewer.run_review outside_repo "prompt" None true "main"))
     = [].
Proof.
  apply (C1_diff_failure_ends_review outside_repo "prompt" None "main"
           {| returncode := 128;
              stdout := EmptyString;
              stderr := "fatal: not a git repository" ++ nl |}).
  - reflexivity.
  - discriminate.
Defined.

(** C1 as stated fails: outside a repository the diff command ends with
    code 128, and the review ends without a request to the service. *)
Lemma C1_counterexample :
  (exists p, subprocess_run outside_repo ["git"; "diff"; "main"; "--"; "*.go"]
             = inl p
             /\ returncode p = 128%Z)
  /\ requests (trace (Reviewer.run_review outside_repo "prompt" None true "main"))
     = []
  /\ existsb is_io
       (skipn 1 (trace (Reviewer.run_review outside_repo "prompt" None true "main")))
     = false.
Proof.
  split; [|split; reflexivity].
  eexists. split; reflexivity.
Qed.




(** ** Discovery *)

Lemma go_paths (l : list path) :
  map str (filter (fun p => fnmatch (name_of p) (Star ".go")) l)
  = filter (fun s => endswith s ".go") (map str l).
Proof.
  rewrite filter_map_swap. f_equal. apply filter_ext.
  intros p. cbn [fnmatch]. symmetry. apply endswith_go_name.
Qed.

Lemma architect_find_go_files_run (w : World) (directory : path) :
  Architect.find_go_files w directory
  = ([EvRglob (str directory) (Star ".go")],
     Return (sorted (filter (fun s => endswith s ".go"
                                      && negb (contains "_test.go" s))
                            (map str (descendants w directory))))).
Proof.
  unfold Architect.find_go_files, rglob. cbn [bind emit ret app].
  now rewrite go_paths, filter_filter_and.
Qed.

Lemma tester_find_go_files_run (w : World) (directory : path) :
  Tester.find_go_files w directory
  = ([EvRglob (str directory) (Star ".go")],
     Return (sorted (filter (fun s => endswith s ".go"
                                      && negb (contains "_test.go" s))
                            (map str (descendants w directory))))).
Proof.
  unfold Tester.find_go_files, rglob. cbn [bind emit ret app].
  now rewrite go_paths, filter_filter_and.
Qed.

Lemma reviewer_find_go_files_run (w : World) (directory : path) :
  Reviewer.find_go_files w directory
  = ([EvRglob (str directory) (Star ".go")],
     Return (sorted (filter (fun s => endswith s ".go")
                            (map str (descendants w directory))))).
Proof.
  unfold Reviewer.find_go_files, rglob. cbn [bind emit ret app].
  now rewrite go_paths.
Qed.

(** C2, as the code has it.  Without a file list, discovery asks once for
    the entries below the directory whose name ends in ".go" (entries of any
    kind, as [rglob] yields them) and returns their paths in lexicographic
    order, each as often as it was found.  The architect and the tester
    leave out every path that contains "_test.go"; the reviewer leaves out
    none. *)
Theorem C2_directory_discovery (w : World) (directory : path) :
  let found := map str (descendants w directory) in
  let asked := [EvRglob (str directory) (Star ".go")] in
  (exists l, Architect.find_go_files w directory = (asked, Return l)
             /\ lex_sorted l
             /\ Permutation l
                  (filter (fun s => endswith s ".go"
                                    && negb (contains "_test.go" s)) found))
  /\ (exists l, Tester.find_go_files w directory = (asked, Return l)
                /\ lex_sorted l
                /\ Permutation l
                     (filter (fun s => endswith s ".go"
                                       && negb (contains "_test.go" s)) found))
  /\ (exists l, Reviewer.find_go_files w directory = (asked, Return l)
                /\ lex_sorted l
                /\ Permutation l (filter (fun s => endswith s ".go") found)).
Proof.
  intros found asked. repeat split.
  - eexists. split; [apply architect_find_go_files_run|].
    split; [apply sorted_lex_sorted | apply sorted_perm].
  - eexists. split; [apply tester_find_go_files_run|].
    split; [apply sorted_lex_sorted | apply sorted_perm].
  - eexists. split; [apply reviewer_find_go_files_run|].
    split; [apply sorted_lex_sorted | apply sorted_perm].
Qed.

(** C2 as stated fails for the reviewer: the test file of the project is
    among the paths its discovery returns. *)
Lemma C2_counterexample :
  Reviewer.find_go_files with_tests []
  = ([EvRglob "." (Star ".go")],
     Return ["main.go"; "pkg/util.go"; "pkg/util_test.go"])
  /\ contains "_test.go" "pkg/util_test.go" = true.
Proof. split; reflexivity. Qed.

(** C3, as the code has it.  Given a list of files that is not empty, the
    architect and the reviewer keep exactly the entries that end in ".go",
    in the order given, and look at no directory; the tester keeps those of
    them that do not contain "_test.go".  An empty list counts as no list:
    each script then scans the working directory. *)
Theorem C3_explicit_file_list (w : World) (files : list string) :
  Architect.go_files w (Some files)
  = (if nonempty files
     then ([], Return (filter (fun f => endswith f ".go") files))
     else Architect.find_go_files w [])
  /\ Reviewer.go_files w (Some files)
     = (if nonempty files
        then ([], Return (filter (fun f => endswith f ".go") files))
        else Reviewer.find_go_files w [])
  /\ Tester.go_files w (Some files)
     = (if nonempty files
        then ([], Return (filter (fun f => endswith f ".go"
                                           && negb (contains "_test.go" f))
                                 files))
        else Tester.find_go_files w []).
Proof.
  unfold Architect.go_files, Reviewer.go_files, Tester.go_files.
  cbn [files_given files_or_nil].
  destruct files as [|f files]; repeat split.
Qed.

Example explicit_list_kept_in_order :
  Architect.go_files with_tests (Some ["b.go"; "notes.md"; "a_test.go"; "a.go"])
  = ([], Return ["b.go"; "a_test.go"; "a.go"])
  /\ Reviewer.go_files with_tests (Some ["b.go"; "notes.md"; "a_test.go"; "a.go"])
     = ([], Return ["b.go"; "a_test.go"; "a.go"])
  /\ Architect.go_files with_tests (Some [])
     = ([EvRglob "." (Star ".go")], Return ["main.go"; "pkg/util.go"]).
Proof. repeat split. Qed.

(** C3 as stated fails for the tester: of the two entries that end in ".go"
    it keeps one. *)
Lemma C3_counterexample :
  filter (fun f => endswith f ".go") ["b.go"; "notes.md"; "a_test.go"; "a.go"]
  = ["b.go"; "a_test.go"; "a.go"]
  /\ Tester.go_files with_tests (Some ["b.go"; "notes.md"; "a_test.go"; "a.go"])
     = ([], Return ["b.go"; "a.go"]).
Proof. split; reflexivity. Qed.

Lemma no_go_found (w : World) (directory : path) (f : string -> bool) :
  (forall p, In p (descendants w directory)
             -> endswith (name_of p) ".go" = false) ->
  filter (fun s => endswith s ".go" && f s) (map str (descendants w directory))
  = [].
Proof.
  intros H. apply filter_none. intros s Hs.
  apply in_map_iff in Hs as [p [<- Hp]].
  now rewrite endswith_go_name, (H p Hp).
Qed.

(** C6.  When no entry below the directory has a name that ends in ".go",
    discovery returns the empty list in each script; run without a file
    list in such a working directory, each pipeline looks for sources once,
    returns its "No Go files found ..." message and sends no request (the
    reviewer in its file mode: in diff mode it scans no directory). *)
Theorem C6_no_sources_no_request (w : World) (prompt : string)
    (files : option (list string)) (base : string) (directory : path) :
  files_given files = false ->
  (forall p, In p (descendants w directory)
             -> endswith (name_of p) ".go" = false) ->
  let asked := [EvRglob (str directory) (Star ".go")] in
  (Architect.find_go_files w directory = (asked, Return [])
   /\ Tester.find_go_files w directory = (asked, Return [])
   /\ Reviewer.find_go_files w directory = (asked, Return []))
  /\ (directory = [] ->
      Architect.run_review w prompt files
      = (asked, Return "No Go files found to review.")
      /\ Tester.run_test_generation w prompt files
         = (asked, Return "No Go files found to generate tests for.")
      /\ Reviewer.run_review w prompt files false base
         = (asked, Return "No Go files found to review.")
      /\ requests (trace (Architect.run_review w prompt files)) = []
      /\ requests (trace (Tester.run_test_generation w prompt files)) = []
      /\ requests (trace (Reviewer.run_review w prompt files false base)) = []).
Proof.
  intros Hfiles Hnone asked.
  assert (Ha : Architect.find_go_files w directory = (asked, Return [])).
  { rewrite architect_find_go_files_run. now rewrite no_go_found. }
  assert (Ht : Tester.find_go_files w directory = (asked, Return [])).
  { rewrite tester_find_go_files_run. now rewrite no_go_found. }
  assert (Hr : Reviewer.find_go_files w directory = (asked, Return [])).
  { rewrite reviewer_find_go_files_run.
    pose proof (no_go_found w directory (fun _ => true) Hnone) as E.
    erewrite filter_ext in E; [rewrite E; reflexivity|].
    intros s. cbn. now rewrite andb_true_r. }
  split; [now repeat split|].
  intros ->.
  assert (Hra : Architect.run_review w prompt files
                = (asked, Return "No Go files found to review.")).
  { unfold Architect.run_review, Architect.go_files.
    rewrite Hfiles, Ha. reflexivity. }
  assert (Hrt : Tester.run_test_generation w prompt files
                = (asked, Return "No Go files found to generate tests for.")).
  { unfold Tester.run_test_generation, Tester.go_files.
    rewrite Hfiles, Ht. reflexivity. }
  assert (Hrr : Reviewer.run_review w prompt files false base
                = (asked, Return "No Go files found to review.")).
  { unfold Reviewer.run_review, Reviewer.go_files.
    rewrite Hfiles, Hr. reflexivity. }
  rewrite Hra, Hrt, Hrr. now repeat split.
Qed.

Lemma C6_no_sources_no_request_witness :
  (Architect.find_go_files without_go [] = ([EvRglob "." (Star ".go")], Return [])
   /\ Tester.find_go_files without_go [] = ([EvRglob "." (Star ".go")], Return [])
   /\ Reviewer.find_go_files without_go []
      = ([EvRglob "." (Star ".go")], Return []))
  /\ (@nil string = [] ->
      Architect.run_review without_go "prompt" None
      = ([EvRglob "." (Star ".go")], Return "No Go files found to review.")
      /\ Tester.run_test_generation without_go "prompt" None
         = ([EvRglob "." (Star ".go")],
            Return "No Go files found to generate tests for.")
      /\ Reviewer.run_review without_go "prompt" None false "main"
         = ([EvRglob "." (Star ".go")], Return "No Go files found to review.")
      /\ requests (trace (Architect.run_review without_go "prompt" None)) = []
      /\ requests (trace (Tester.run_test_generation without_go "prompt" None))
         = []
      /\ requests (trace (Reviewer.run_review without_go "prompt" None false
                            "main")) = []).
Proof.
  apply (C6_no_sources_no_request without_go "prompt" None "main" []).
  - reflexivity.
  - intros p Hp. cbn in Hp.
    destruct Hp as [<-|[<-|[<-|[]]]]; reflexivity.
Defined.

Lemma two_entries (w : World) :
  Permutation (subtree w []) [File "a.go"; File "b.go"] ->
  descendants w [] = [["a.go"]; ["b.go"]]
  \/ descendants w [] = [["b.go"]; ["a.go"]].
Proof.
  intros Hperm. unfold descendants.
  apply Permutation_sym, Permutation_length_2_inv in Hperm as [E|E];
    rewrite E; [left | right]; reflexivity.
Qed.

Ltac either_listing w H :=
  let E := fresh "E" in
  destruct (two_entries w H) as [E|E]; rewrite E; reflexivity.

(** C7.  In a working directory that holds exactly the two files a.go
    ("package a") and b.go ("package b"), in whichever order the file system
    lists them, discovery without a file list returns ["a.go"; "b.go"], and
    the context the architect assembles and sends is the heading followed by
    the fenced block of a.go and then the fenced block of b.go. *)
Theorem C7_two_sources_in_order (w : World) (prompt : string)
    (files : option (list string)) :
  files_given files = false ->
  Permutation (subtree w []) [File "a.go"; File "b.go"] ->
  open_read w "a.go" = inl "package a" ->
  open_read w "b.go" = inl "package b" ->
  path_exists w "openapi.yaml" = false ->
  let context :=
    "# Code to Review" ++ nl ++ nl
    ++ ("### File: a.go" ++ nl ++ "```go" ++ nl ++ "package a" ++ nl
        ++ "```" ++ nl)
    ++ ("### File: b.go" ++ nl ++ "```go" ++ nl ++ "package b" ++ nl
        ++ "```" ++ nl) in
  result (Architect.find_go_files w []) = Return ["a.go"; "b.go"]
  /\ result (Reviewer.find_go_files w []) = Return ["a.go"; "b.go"]
  /\ result (Tester.find_go_files w []) = Return ["a.go"; "b.go"]
  /\ result (Architect.code_context w ["a.go"; "b.go"]) = Return context
  /\ requests (trace (Architect.run_review w prompt files))
     = [ {| model := "claude-sonnet-4-20250514";
            max_tokens := 4096;
            system := prompt;
            user_content :=
              "Please review the following Go API code for architectural best practices:"
              ++ nl ++ nl ++ context |} ].
Proof.
  intros Hfiles Hperm Ha Hb Hspec context.
  assert (Hdisc : Architect.find_go_files w []
                  = ([EvRglob "." (Star ".go")], Return ["a.go"; "b.go"])).
  { rewrite architect_find_go_files_run.
    either_listing w Hperm. }
  assert (Hspecs : Architect.find_api_specs w []
                   = ([EvRglob "." (Star ".yaml"); EvRglob "." (Star ".yml");
                       EvRglob "." (Star ".json"); EvExists "openapi.yaml"],
                      Return [])).
  { unfold Architect.find_api_specs, rglob.
    destruct (two_entries w Hperm) as [E|E]; rewrite E;
      cbn; rewrite Hspec; reflexivity. }
  assert (Hctx : Architect.code_context w ["a.go"; "b.go"]
                 = ([EvOpenRead "a.go"; EvOpenRead "b.go";
                     EvRglob "." (Star ".yaml"); EvRglob "." (Star ".yml");
                     EvRglob "." (Star ".json"); EvExists "openapi.yaml"],
                    Return context)).
  { unfold Architect.code_context. rewrite append_files_run, Hspecs.
    cbn [map join fold_right]. unfold block. rewrite Ha, Hb. reflexivity. }
  repeat split.
  - now rewrite Hdisc.
  - rewrite reviewer_find_go_files_run.
    either_listing w Hperm.
  - rewrite tester_find_go_files_run.
    either_listing w Hperm.
  - now rewrite Hctx.
  - unfold Architect.run_review, Architect.go_files.
    rewrite Hfiles, Hdisc. cbn [bind nonempty negb app].
    rewrite Hctx. unfold create. cbn [bind emit app].
    destruct (messages_create w _); reflexivity.
Qed.

Lemma C7_two_sources_in_order_witness :
  result (Architect.find_go_files outside_repo []) = Return ["a.go"; "b.go"]
  /\ result (Reviewer.find_go_files outside_repo []) = Return ["a.go"; "b.go"]
  /\ result (Tester.find_go_files outside_repo []) = Return ["a.go"; "b.go"]
  /\ result (Architect.code_context outside_repo ["a.go"; "b.go"])
     = Return ("# Code to Review" ++ nl ++ nl
               ++ fenced_block "a.go" "package a"
               ++ fenced_block "b.go" "package b")
  /\ requests (trace (Architect.run_review outside_repo "prompt" None))
     = [ {| model := "claude-sonnet-4-20250514";
            max_tokens := 4096;
            system := "prompt";
            user_content :=
              "Please review the following Go API code for architectural best practices:"
              ++ nl ++ nl ++ "# Code to Review" ++ nl ++ nl
              ++ fenced_block "a.go" "package a"
              ++ fenced_block "b.go" "package b" |} ].
Proof.
  apply (C7_two_sources_in_order outside_repo "prompt" None).
  - reflexivity.
  - apply perm_swap.
  - reflexivity.
  - reflexivity.
  - reflexivity.
Defined.

(** ** Entry points *)

(** C4, as the code has it.  With the key unset, each [main] prints
    "Error: ANTHROPIC_API_KEY environment variable not set" with a plain
    [print], so on standard output, and ends with [sys.exit(1)]; that line
    is the whole trace: nothing reaches the diagnostic stream, no directory
    is scanned, no file opened, no process started, no request sent. *)
Theorem C4_missing_key_exits_first (w : World) (prompt : string)
    (a : Architect.Args) (r : Reviewer.Args) (t : Tester.Args) :
  environ w "ANTHROPIC_API_KEY" = None ->
  let said :=
    [EvStdout ("Error: ANTHROPIC_API_KEY environment variable not set" ++ nl)] in
  Architect.main w prompt a = (said, SysExit 1)
  /\ Reviewer.main w prompt r = (said, SysExit 1)
  /\ Tester.main w prompt t = (said, SysExit 1)
  /\ existsb is_io said = false
  /\ existsb on_stderr said = false.
Proof.
  intros Hkey said.
  unfold Architect.main, Reviewer.main, Tester.main, env_missing.
  rewrite Hkey. repeat split.
Qed.

Lemma C4_missing_key_exits_first_witness :
  Architect.main no_key "prompt"
    {| Architect.files := None; Architect.output := None |}
  = ([EvStdout ("Error: ANTHROPIC_API_KEY environment variable not set" ++ nl)],
     SysExit 1)
  /\ Reviewer.main no_key "prompt"
       {| Reviewer.files := None; Reviewer.diff := true;
          Reviewer.base := "main"; Reviewer.output := None |}
     = ([EvStdout ("Error: ANTHROPIC_API_KEY environment variable not set" ++ nl)],
        SysExit 1)
  /\ Tester.main no_key "prompt"
       {| Tester.files := Some ["a.go"]; Tester.output := Some "out.go" |}
     = ([EvStdout ("Error: ANTHROPIC_API_KEY environment variable not set" ++ nl)],
        SysExit 1)
  /\ existsb is_io
       [EvStdout ("Error: ANTHROPIC_API_KEY environment variable not set" ++ nl)]
     = false
  /\ existsb on_stderr
       [EvStdout ("Error: ANTHROPIC_API_KEY environment variable not set" ++ nl)]
     = false.
Proof.
  apply (C4_missing_key_exits_first no_key "prompt").
  reflexivity.
Defined.

(** C4 as stated fails: with the key unset the architect's [main] ends with
    code 1 and nothing was written to the diagnostic stream. *)
Lemma C4_counterexample :
  environ no_key "ANTHROPIC_API_KEY" = None
  /\ result (Architect.main no_key "prompt"
               {| Architect.files := None; Architect.output := None |})
     = SysExit 1
  /\ filter on_stderr
       (trace (Architect.main no_key "prompt"
                 {| Architect.files := None; Architect.output := None |}))
     = [].
Proof. repeat split. Qed.

Lemma route_output_run (w : World) (what text : string)
    (output : option string) :
  route_output w what output text
  = match output with
    | Some p =>
        if truthy p
        then match open_write w p with
             | Some e => ([], Raise e)
             | None =>
                 match write_text w p text with
                 | None => ([EvOpenWrite p; EvWrite p text;
                             EvStderr (what ++ " written to " ++ p ++ nl)],
                            Return tt)
                 | Some e => ([EvOpenWrite p], Raise e)
                 end
             end
        else ([EvStdout (text ++ nl)], Return tt)
    | None => ([EvStdout (text ++ nl)], Return tt)
    end.
Proof.
  unfold route_output, write_file, print, print_stderr.
  destruct output as [p|]; [|reflexivity].
  destruct (truthy p); [|reflexivity].
  destruct (open_write w p); [reflexivity|].
  destruct (write_text w p text); cbn [bind emit raise app]; [reflexivity|].
  now rewrite append_assoc.
Qed.



Example output_written :
  route_output spec_world "Review" (Some "review.md") "LGTM"
  = ([EvOpenWrite "review.md"; EvWrite "review.md" "LGTM";
      EvStderr ("Review written to review.md" ++ nl)],
     Return tt)
  /\ route_output spec_world "Tests" None "LGTM"
     = ([EvStdout ("LGTM" ++ nl)], Return tt).
Proof. split; reflexivity. Qed.

(** ** From the parts to the whole run *)

(** In file mode the reviewer sends one request: the heading and the block
    of each selected file, unreadable ones included. *)
Lemma reviewer_file_mode_request (w : World) (prompt : string)
    (files : option (list string)) (base : string) (t : list event)
    (gf : list string) :
  Reviewer.go_files w files = (t, Return gf) ->
  nonempty gf = true ->
  requests (trace (Reviewer.run_review w prompt files false base))
  = (requests t
     ++ [ {| model := "claude-sonnet-4-20250514";
             max_tokens := 4096;
             system := prompt;
             user_content := "Please conduct a thorough code review:" ++ nl ++ nl
                             ++ "# Code to Review" ++ nl ++ nl
                             ++ join (map (block w) gf) |} ])%list.
Proof.
  intros Hgf Hne. unfold Reviewer.run_review. rewrite Hgf.
  rewrite bind_return, Hne. cbn [negb].
  rewrite append_files_run, bind_return.
  unfold Reviewer.request, create. cbn [trace fst bind emit app].
  rewrite requests_app, requests_app, requests_reads. cbn [app].
  destruct (messages_create w _); cbn; now rewrite ?append_assoc.
Qed.

Ltac through_main Hrun :=
  unfold print_stderr; rewrite Hrun;
  cbn [bind emit app trace result fst snd];
  match goal with
  | |- context [route_output ?w ?what ?out ?text] =>
      destruct (route_output w what out text); cbn [fst snd]
  end;
  now rewrite ?append_assoc.

(** With a key in the environment, [main] announces itself on the diagnostic
    stream, runs the pipeline and hands its text to the last step. *)
Lemma architect_main_routes (w : World) (prompt key text : string)
    (args : Architect.Args) (t : list event) :
  environ w "ANTHROPIC_API_KEY" = Some key -> key <> EmptyString ->
  Architect.run_review w prompt (Architect.files args) = (t, Return text) ->
  Architect.main w prompt args
  = ((EvStderr ("Running Go Architecture Review..." ++ nl ++ nl) :: t
      ++ trace (route_output w "Review" (Architect.output args) text))%list,
     result (route_output w "Review" (Architect.output args) text)).
Proof.
  intros Hkey Hne Hrun. unfold Architect.main, env_missing.
  rewrite Hkey, (truthy_true key Hne). cbn [negb].
  through_main Hrun.
Qed.

Lemma reviewer_main_routes (w : World) (prompt key text : string)
    (args : Reviewer.Args) (t : list event) :
  environ w "ANTHROPIC_API_KEY" = Some key -> key <> EmptyString ->
  Reviewer.run_review w prompt (Reviewer.files args) (Reviewer.diff args)
    (Reviewer.base args) = (t, Return text) ->
  Reviewer.main w prompt args
  = ((EvStderr ("Running Go Code Review..." ++ nl ++ nl) :: t
      ++ trace (route_output w "Review" (Reviewer.output args) text))%list,
     result (route_output w "Review" (Reviewer.output args) text)).
Proof.
  intros Hkey Hne Hrun. unfold Reviewer.main, env_missing.
  rewrite Hkey, (truthy_true key Hne). cbn [negb].
  through_main Hrun.
Qed.

Lemma tester_main_routes (w : World) (prompt key text : string)
    (args : Tester.Args) (t : list event) :
  environ w "ANTHROPIC_API_KEY" = Some key -> key <> EmptyString ->
  Tester.run_test_generation w prompt (Tester.files args) = (t, Return text) ->
  Tester.main w prompt args
  = ((EvStderr ("Generating Go Tests..." ++ nl ++ nl) :: t
      ++ trace (route_output w "Tests" (Tester.output args) text))%list,
     result (route_output w "Tests" (Tester.output args) text)).
Proof.
  intros Hkey Hne Hrun. unfold Tester.main, env_missing.
  rewrite Hkey, (truthy_true key Hne). cbn [negb].
  through_main Hrun.
Qed.

(** * Further properties of the three scripts *)

(** ** Traces of composed actions *)

Lemma trace_bind {A B : Type} (m : M A) (k : A -> M B) :
  trace (bind m k)
  = (trace m ++ match result m with
                | Return a => trace (k a)
                | _ => []
                end)%list.
Proof.
  destruct m as [t [a|e|c]]; cbn [bind trace result fst snd].
  - now destruct (k a).
  - now rewrite app_nil_r.
  - now rewrite app_nil_r.
Qed.

Lemma result_bind {A B : Type} (m : M A) (k : A -> M B) :
  result (bind m k)
  = match result m with
    | Return a => result (k a)
    | Raise e => Raise e
    | SysExit c => SysExit c
    end.
Proof.
  destruct m as [t [a|e|c]]; cbn [bind trace result fst snd]; try reflexivity.
  now destruct (k a).
Qed.

Lemma probing_ret {A : Type} (a : A) : probing (ret a).
Proof. reflexivity. Qed.

Lemma probing_bind {A B : Type} (m : M A) (k : A -> M B) :
  probing m -> (forall a, probing (k a)) -> probing (bind m k).
Proof.
  unfold probing. intros Hm Hk. rewrite trace_bind, forallb_app, Hm.
  destruct (result m); try reflexivity. apply Hk.
Qed.

Lemma probing_for_each {A S : Type} (l : list A) (body : S -> A -> M S)
    (acc : S) :
  (forall s x, probing (body s x)) -> probing (for_each l body acc).
Proof.
  intros Hbody. revert acc.
  induction l as [|x l IH]; intros acc; cbn [for_each].
  - apply probing_ret.
  - apply probing_bind; [apply Hbody | exact IH].
Qed.

Lemma probing_rglob (w : World) (directory : path) (pat : pattern) :
  probing (rglob w directory pat).
Proof. reflexivity. Qed.

Lemma probing_read_file (w : World) (filepath : string) :
  probing (read_file w filepath).
Proof. now rewrite read_file_run. Qed.

Lemma probing_append_files (w : World) (files : list string) (ctx : string) :
  probing (append_files w files ctx).
Proof.
  apply probing_for_each. intros s x.
  apply probing_bind; [apply probing_read_file | intros; apply probing_ret].
Qed.

Create HintDb probes.
#[local] Hint Resolve probing_ret probing_rglob probing_read_file
  probing_append_files : probes.
#[local] Hint Extern 2 (probing (bind _ _)) =>
  apply probing_bind; [|intros] : probes.
#[local] Hint Extern 2 (probing (for_each _ _ _)) =>
  apply probing_for_each; intros : probes.
#[local] Hint Extern 3 (probing (if ?b then _ else _)) => destruct b : probes.
#[local] Hint Extern 1 (probing (emit _)) => reflexivity : probes.

Lemma probing_architect_go_files (w : World) (files : option (list string)) :
  probing (Architect.go_files w files).
Proof.
  unfold Architect.go_files, Architect.find_go_files. auto with probes.
Qed.

Lemma probing_find_api_specs (w : World) (directory : path) :
  probing (Architect.find_api_specs w directory).
Proof. unfold Architect.find_api_specs. auto 8 with probes. Qed.

Lemma probing_add_spec (w : World) (ctx spec : string) :
  probing (Architect.add_spec w ctx spec).
Proof. unfold Architect.add_spec. now destruct (open_read w spec). Qed.

Lemma probing_architect_context (w : World) (gf : list string) :
  probing (Architect.code_context w gf).
Proof.
  unfold Architect.code_context.
  apply probing_bind; [apply probing_append_files | intros ctx].
  apply probing_bind; [apply probing_find_api_specs | intros specs].
  destruct (nonempty specs); [|apply probing_ret].
  apply probing_for_each. intros. apply probing_add_spec.
Qed.

Lemma probing_reviewer_go_files (w : World) (files : option (list string)) :
  probing (Reviewer.go_files w files).
Proof.
  unfold Reviewer.go_files, Reviewer.find_go_files. auto with probes.
Qed.

Lemma probing_get_git_diff (w : World) (base : string) :
  probing (Reviewer.get_git_diff w base).
Proof.
  unfold Reviewer.get_git_diff.
  destruct (subprocess_run w _) as [p|e]; [|reflexivity].
  now destruct (returncode p =? 0)%Z.
Qed.

Lemma probing_get_changed_files (w : World) (base : string) :
  probing (Reviewer.get_changed_files w base).
Proof.
  destruct (get_changed_files_trace w base) as [o ->]. reflexivity.
Qed.

Lemma probing_add_changed (w : World) (ctx filepath : string) :
  probing (Reviewer.add_changed w ctx filepath).
Proof.
  unfold Reviewer.add_changed. destruct (path_exists w filepath).
  - rewrite read_file_run. reflexivity.
  - reflexivity.
Qed.

Lemma probing_tester_go_files (w : World) (files : option (list string)) :
  probing (Tester.go_files w files).
Proof.
  unfold Tester.go_files, Tester.find_go_files. auto with probes.
Qed.

Lemma probing_tester_context (w : World) (gf : list string) :
  probing (Tester.code_context w gf).
Proof.
  unfold Tester.code_context, Tester.find_test_files. auto 8 with probes.
Qed.

Lemma asks_of_probing {A : Type} (m : M A) : probing m -> gathers_then_asks m.
Proof. intros H. exists (trace m). split; [exact H | now left]. Qed.

Lemma asks_bind {A B : Type} (m : M A) (k : A -> M B) :
  probing m -> (forall a, gathers_then_asks (k a)) ->
  gathers_then_asks (bind m k).
Proof.
  intros Hm Hk. unfold gathers_then_asks. rewrite trace_bind.
  destruct (result m) as [a|e|c].
  - destruct (Hk a) as [probes [Hp [E|[req E]]]]; rewrite E.
    + exists (trace m ++ probes)%list. split; [|now left].
      rewrite forallb_app, Hp. unfold probing in Hm. now rewrite Hm.
    + exists (trace m ++ probes)%list. split.
      * rewrite forallb_app, Hp. unfold probing in Hm. now rewrite Hm.
      * right. exists req. now rewrite app_assoc.
  - exists (trace m). rewrite app_nil_r. split; [exact Hm | now left].
  - exists (trace m). rewrite app_nil_r. split; [exact Hm | now left].
Qed.

Lemma asks_create (w : World) (prompt content : string) :
  gathers_then_asks (create w prompt content).
Proof.
  exists []. split; [reflexivity|]. right. eexists.
  unfold create. cbn [bind emit]. destruct (messages_create w _); reflexivity.
Qed.

Lemma architect_asks (w : World) (prompt : string)
    (files : option (list string)) :
  gathers_then_asks (Architect.run_review w prompt files).
Proof.
  unfold Architect.run_review.
  apply asks_bind; [apply probing_architect_go_files | intros gf].
  destruct (negb (nonempty gf)); [apply asks_of_probing, probing_ret|].
  apply asks_bind; [apply probing_architect_context | intros ctx].
  apply asks_create.
Qed.

Lemma reviewer_asks (w : World) (prompt : string)
    (files : option (list string)) (use_diff : bool) (base : string) :
  gathers_then_asks (Reviewer.run_review w prompt files use_diff base).
Proof.
  unfold Reviewer.run_review, Reviewer.request. destruct use_diff.
  - apply asks_bind; [apply probing_get_git_diff | intros diff].
    destruct (negb (truthy diff) || startswith diff "Error");
      [apply asks_of_probing, probing_ret|].
    apply asks_bind; [apply probing_get_changed_files | intros changed].
    apply asks_bind; [|intros ctx; apply asks_create].
    destruct (nonempty changed); [|apply probing_ret].
    apply probing_for_each. intros. apply probing_add_changed.
  - apply asks_bind; [apply probing_reviewer_go_files | intros gf].
    destruct (negb (nonempty gf)); [apply asks_of_probing, probing_ret|].
    apply asks_bind; [apply probing_append_files | intros ctx].
    apply asks_create.
Qed.

Lemma tester_asks (w : World) (prompt : string)
    (files : option (list string)) :
  gathers_then_asks (Tester.run_test_generation w prompt files).
Proof.
  unfold Tester.run_test_generation.
  apply asks_bind; [apply probing_tester_go_files | intros gf].
  destruct (negb (nonempty gf)); [apply asks_of_probing, probing_ret|].
  apply asks_bind; [apply probing_tester_context | intros ctx].
  apply asks_create.
Qed.

Lemma probes_show_nothing (t : list event) :
  forallb is_probe t = true ->
  requests t = [] /\ existsb on_stdout t = false
  /\ existsb on_stderr t = false /\ existsb is_write t = false.
Proof.
  induction t as [|e t IH]; [now repeat split|].
  cbn [forallb]. intros H. apply andb_true_iff in H as [He Ht].
  destruct (IH Ht) as [H1 [H2 [H3 H4]]].
  destruct e; try discriminate; cbn; now repeat split.
Qed.

Lemma asks_once_in_silence {A : Type} (m : M A) :
  gathers_then_asks m ->
  (length (requests (trace m)) <= 1)%nat
  /\ existsb on_stdout (trace m) = false
  /\ existsb on_stderr (trace m) = false
  /\ existsb is_write (trace m) = false.
Proof.
  intros [probes [Hp [E|[req E]]]]; rewrite E;
    destruct (probes_show_nothing probes Hp) as [H1 [H2 [H3 H4]]].
  - rewrite H1. repeat split; auto.
  - rewrite requests_app, !existsb_app, H1, H2, H3, H4. repeat split; auto.
Qed.

(** Each pipeline, in every mode and in all surroundings, first looks around
    (scans, reads, existence tests, [git]) and then sends at most one
    request, after which it does nothing more; it never prints and never
    writes a file. *)
Theorem pipelines_gather_then_ask_once (w : World) (prompt : string)
    (files : option (list string)) (use_diff : bool) (base : string) :
  let a := Architect.run_review w prompt files in
  let r := Reviewer.run_review w prompt files use_diff base in
  let t := Tester.run_test_generation w prompt files in
  (gathers_then_asks a /\ gathers_then_asks r /\ gathers_then_asks t)
  /\ ((length (requests (trace a)) <= 1)%nat
      /\ (length (requests (trace r)) <= 1)%nat
      /\ (length (requests (trace t)) <= 1)%nat)
  /\ (existsb on_stdout (trace a) = false
      /\ existsb on_stdout (trace r) = false
      /\ existsb on_stdout (trace t) = false)
  /\ (existsb on_stderr (trace a) = false
      /\ existsb on_stderr (trace r) = false
      /\ existsb on_stderr (trace t) = false)
  /\ (existsb is_write (trace a) = false
      /\ existsb is_write (trace r) = false
      /\ existsb is_write (trace t) = false).
Proof.
  intros a r t.
  pose proof (architect_asks w prompt files) as Ha.
  pose proof (reviewer_asks w prompt files use_diff base) as Hr.
  pose proof (tester_asks w prompt files) as Ht.
  destruct (asks_once_in_silence _ Ha) as [A1 [A2 [A3 A4]]].
  destruct (asks_once_in_silence _ Hr) as [R1 [R2 [R3 R4]]].
  destruct (asks_once_in_silence _ Ht) as [T1 [T2 [T3 T4]]].
  repeat split; assumption.
Qed.

(** ** The reviewer's diff mode at its edges *)

Lemma reviewer_diff_accepted (w : World) (prompt : string)
    (files : option (list string)) (base : string) (p : CompletedProcess) :
  subprocess_run w ["git"; "diff"; base; "--"; "*.go"] = inl p ->
  returncode p = 0%Z ->
  stdout p <> EmptyString ->
  startswith (stdout p) "Error" = false ->
  let section := "# Git Diff (against " ++ base ++ ")" ++ nl ++ nl
                 ++ "```diff" ++ nl ++ stdout p ++ nl ++ "```" ++ nl in
  let rest :=
    changed_files <- Reviewer.get_changed_files w base ;;
    ctx <- (if nonempty changed_files
            then for_each changed_files (Reviewer.add_changed w)
                   (section ++ nl ++ "# Full Files (for context)" ++ nl ++ nl)
            else ret section) ;;
    Reviewer.request w prompt ctx in
  Reviewer.run_review w prompt files true base
  = (EvSubprocess ["git"; "diff"; base; "--"; "*.go"] :: trace rest,
     result rest).
Proof.
  intros Hrun Hrc Hne Herr section rest.
  unfold Reviewer.run_review, Reviewer.get_git_diff.
  rewrite Hrun, Hrc. cbn [Z.eqb bind emit ret app].
  rewrite (truthy_true _ Hne), Herr. cbn [negb orb].
  fold section. fold rest. now destruct rest.
Qed.

(** When [git] cannot be started at all, the diff mode has no message to
    fall back on: the error raised by [subprocess.run] passes through
    [get_git_diff], [run_review] and [main]; after the banner and the
    attempt nothing else happens, no request is sent and nothing is
    written. *)
Theorem diff_mode_without_git_raises (w : World) (prompt key e : string)
    (args : Reviewer.Args) :
  environ w "ANTHROPIC_API_KEY" = Some key -> key <> EmptyString ->
  Reviewer.diff args = true ->
  subprocess_run w ["git"; "diff"; Reviewer.base args; "--"; "*.go"] = inr e ->
  Reviewer.run_review w prompt (Reviewer.files args) true (Reviewer.base args)
  = ([EvSubprocess ["git"; "diff"; Reviewer.base args; "--"; "*.go"]], Raise e)
  /\ Reviewer.main w prompt args
     = ([EvStderr ("Running Go Code Review..." ++ nl ++ nl);
         EvSubprocess ["git"; "diff"; Reviewer.base args; "--"; "*.go"]],
        Raise e).
Proof.
  intros Hkey Hne Hdiff Hrun.
  assert (Hrev : Reviewer.run_review w prompt (Reviewer.files args) true
                   (Reviewer.base args)
                 = ([EvSubprocess ["git"; "diff"; Reviewer.base args; "--"; "*.go"]],
                    Raise e)).
  { unfold Reviewer.run_review, Reviewer.get_git_diff. now rewrite Hrun. }
  split; [exact Hrev|].
  unfold Reviewer.main, env_missing.
  rewrite Hkey, (truthy_true key Hne), Hdiff, Hrev. cbn [negb].
  unfold print_stderr. cbn [bind emit app]. now rewrite ?append_assoc.
Qed.

(** The surroundings of the examples, with a [git] that cannot be started. *)
Lemma diff_mode_without_git_raises_witness :
  let w := example_world (Some "sk-test") two_sources
             (fun _ => inr "[Errno 2] No such file or directory: 'git'") in
  let args := {| Reviewer.files := None; Reviewer.diff := true;
                 Reviewer.base := "main"; Reviewer.output := Some "out.md" |} in
  Reviewer.run_review w "prompt" None true "main"
  = ([EvSubprocess ["git"; "diff"; "main"; "--"; "*.go"]],
     Raise "[Errno 2] No such file or directory: 'git'")
  /\ Reviewer.main w "prompt" args
     = ([EvStderr ("Running Go Code Review..." ++ nl ++ nl);
         EvSubprocess ["git"; "diff"; "main"; "--"; "*.go"]],
        Raise "[Errno 2] No such file or directory: 'git'").
Proof.
  intros w args.
  apply (diff_mode_without_git_raises w "prompt" "sk-test"
           "[Errno 2] No such file or directory: 'git'" args).
  - reflexivity.
  - discriminate.
  - reflexivity.
  - reflexivity.
Defined.

(** A diff command that succeeds and prints nothing ends the review as a
    failed one does: [run_review] returns "No changes to review or error: "
    with nothing after it, asks [git] nothing more, reads no file and sends
    no request. *)
Theorem empty_diff_ends_review (w : World) (prompt : string)
    (files : option (list string)) (base : string) (p : CompletedProcess) :
  subprocess_run w ["git"; "diff"; base; "--"; "*.go"] = inl p ->
  returncode p = 0%Z ->
  stdout p = EmptyString ->
  Reviewer.run_review w prompt files true base
  = ([EvSubprocess ["git"; "diff"; base; "--"; "*.go"]],
     Return "No changes to review or error: ").
Proof.
  intros Hrun Hrc Hout.
  unfold Reviewer.run_review, Reviewer.get_git_diff.
  rewrite Hrun, Hrc, Hout. reflexivity.
Qed.

Lemma empty_diff_ends_review_witness :
  let w := example_world (Some "sk-test") two_sources
             (fun _ => inl {| returncode := 0; stdout := EmptyString;
                              stderr := EmptyString |}) in
  Reviewer.run_review w "prompt" None true "main"
  = ([EvSubprocess ["git"; "diff"; "main"; "--"; "*.go"]],
     Return "No changes to review or error: ").
Proof.
  intros w.
  apply (empty_diff_ends_review w "prompt" None "main"
           {| returncode := 0; stdout := EmptyString; stderr := EmptyString |});
    reflexivity.
Defined.

(** When the diff was accepted and the second command, which lists the
    changed files, ends with a return code other than 0, the review goes on
    with the diff alone: the request holds the diff section and no
    "Full Files" section, and no file is tested or opened. *)
Theorem failed_name_list_leaves_diff_alone (w : World) (prompt : string)
    (files : option (list string)) (base : string) (p q : CompletedProcess) :
  subprocess_run w ["git"; "diff"; base; "--"; "*.go"] = inl p ->
  returncode p = 0%Z ->
  stdout p <> EmptyString ->
  startswith (stdout p) "Error" = false ->
  subprocess_run w ["git"; "diff"; "--name-only"; base; "--"; "*.go"] = inl q ->
  returncode q <> 0%Z ->
  trace (Reviewer.run_review w prompt files true base)
  = [EvSubprocess ["git"; "diff"; base; "--"; "*.go"];
     EvSubprocess ["git"; "diff"; "--name-only"; base; "--"; "*.go"];
     EvMessagesCreate
       {| model := "claude-sonnet-4-20250514";
          max_tokens := 4096;
          system := prompt;
          user_content :=
            "Please conduct a thorough code review:" ++ nl ++ nl
            ++ "# Git Diff (against " ++ base ++ ")" ++ nl ++ nl
            ++ "```diff" ++ nl ++ stdout p ++ nl ++ "```" ++ nl |}].
Proof.
  intros Hrun Hrc Hne Herr Hrun2 Hrc2.
  rewrite (reviewer_diff_accepted w prompt files base p Hrun Hrc Hne Herr).
  cbn [trace fst]. f_equal.
  unfold Reviewer.get_changed_files. rewrite Hrun2.
  apply Z.eqb_neq in Hrc2. rewrite Hrc2.
  unfold Reviewer.request, create. cbn [bind emit ret app nonempty].
  destruct (messages_create w _); reflexivity.
Qed.

Lemma failed_name_list_leaves_diff_alone_witness :
  let git := fun argv : list string =>
    if existsb (String.eqb "--name-only") argv
    then inl {| returncode := 128; stdout := EmptyString;
                stderr := "fatal: bad revision" ++ nl |}
    else inl {| returncode := 0; stdout := "diff --git a/a.go b/a.go" ++ nl;
                stderr := EmptyString |} in
  trace (Reviewer.run_review (example_world (Some "sk-test") two_sources git)
           "prompt" None true "main")
  = [EvSubprocess ["git"; "diff"; "main"; "--"; "*.go"];
     EvSubprocess ["git"; "diff"; "--name-only"; "main"; "--"; "*.go"];
     EvMessagesCreate
       {| model := "claude-sonnet-4-20250514";
          max_tokens := 4096;
          system := "prompt";
          user_content :=
            "Please conduct a thorough code review:" ++ nl ++ nl
            ++ "# Git Diff (against " ++ "main" ++ ")" ++ nl ++ nl
            ++ "```diff" ++ nl ++ ("diff --git a/a.go b/a.go" ++ nl) ++ nl
            ++ "```" ++ nl |}].
Proof.
  intros git.
  apply (failed_name_list_leaves_diff_alone
           (example_world (Some "sk-test") two_sources git) "prompt" None "main"
           {| returncode := 0; stdout := "diff --git a/a.go b/a.go" ++ nl;
              stderr := EmptyString |}
           {| returncode := 128; stdout := EmptyString;
              stderr := "fatal: bad revision" ++ nl |}).
  - reflexivity.
  - reflexivity.
  - discriminate.
  - reflexivity.
  - reflexivity.
  - discriminate.
Defined.

(** ** The list of changed files *)

Lemma contains_nl_cons (c : ascii) (s : string) :
  contains nl (String c s) = Ascii.eqb c LF || contains nl s.
Proof.
  cbn [contains]. f_equal. unfold nl. cbn [prefix].
  destruct (ascii_dec LF c) as [<-|N].
  - rewrite Ascii.eqb_refl. now destruct s.
  - symmetry. apply Ascii.eqb_neq. congruence.
Qed.

Lemma lstrip_length (s : string) :
  (String.length (lstrip s) <= String.length s)%nat.
Proof.
  induction s as [|c s IH]; cbn [lstrip String.length]; [lia|].
  destruct (isspace c); cbn [String.length]; lia.
Qed.

Lemma lstrip_fixed_head (c : ascii) (s : string) :
  lstrip (String c s) = String c s -> isspace c = false.
Proof.
  cbn [lstrip]. destruct (isspace c); [|reflexivity].
  intros E. pose proof (lstrip_length s) as L. rewrite E in L.
  cbn [String.length] in L. lia.
Qed.

Lemma lstrip_head (s : string) :
  match lstrip s with
  | EmptyString => True
  | String c _ => isspace c = false
  end.
Proof.
  induction s as [|c s IH]; cbn [lstrip]; [exact I|].
  destruct (isspace c) eqn:E; [exact IH | exact E].
Qed.

Lemma rstrip_keeps_head (c : ascii) (s : string) :
  isspace c = false -> exists r, rstrip (String c s) = String c r.
Proof.
  intros E. cbn [rstrip]. destruct (rstrip s) as [|d r].
  - rewrite E. now exists EmptyString.
  - now exists (String d r).
Qed.

Lemma rstrip_idem (s : string) : rstrip (rstrip s) = rstrip s.
Proof.
  induction s as [|c s IH]; [reflexivity|].
  cbn [rstrip]. destruct (rstrip s) as [|d r] eqn:E.
  - destruct (isspace c) eqn:Ec; [reflexivity|].
    cbn [rstrip]. now rewrite Ec.
  - change (rstrip (String c (String d r)))
      with (match rstrip (String d r) with
            | EmptyString => if isspace c then EmptyString
                             else String c EmptyString
            | String x y => String c (String x y)
            end).
    now rewrite IH.
Qed.

Lemma strip_idem (s : string) : strip (strip s) = strip s.
Proof.
  unfold strip. pose proof (lstrip_head s) as H.
  destruct (lstrip s) as [|c t]; [reflexivity|].
  destruct (rstrip_keeps_head c t H) as [r E]. rewrite E.
  cbn [lstrip]. rewrite H, <- E. apply rstrip_idem.
Qed.

Lemma lstrip_no_nl (s : string) :
  contains nl s = false -> contains nl (lstrip s) = false.
Proof.
  induction s as [|c s IH]; [trivial|].
  intros H. cbn [lstrip]. destruct (isspace c); [|exact H].
  rewrite contains_nl_cons in H. apply orb_false_iff in H as [_ H]. auto.
Qed.

Lemma rstrip_no_nl (s : string) :
  contains nl s = false -> contains nl (rstrip s) = false.
Proof.
  induction s as [|c s IH]; [trivial|].
  intros H. rewrite contains_nl_cons in H.
  apply orb_false_iff in H as [Hc H]. specialize (IH H).
  cbn [rstrip]. destruct (rstrip s) as [|d r].
  - destruct (isspace c); [reflexivity|].
    rewrite contains_nl_cons, Hc. reflexivity.
  - now rewrite contains_nl_cons, Hc, IH.
Qed.

Lemma split_cons (sep : ascii) (s : string) :
  exists h t, split sep s = h :: t.
Proof.
  induction s as [|c s [h [t IH]]]; cbn [split]; [now eexists; eexists|].
  destruct (Ascii.eqb c sep); [now eexists; eexists|].
  rewrite IH. now eexists; eexists.
Qed.

Lemma split_no_nl (s : string) :
  Forall (fun x => contains nl x = false) (split LF s).
Proof.
  induction s as [|c s IH]; cbn [split]; [now repeat constructor|].
  destruct (Ascii.eqb c LF) eqn:E; [now constructor|].
  destruct (split LF s) as [|h t]; [repeat constructor|].
  - now rewrite contains_nl_cons, E.
  - inversion IH as [|? ? Hh Ht]; subst. constructor; [|exact Ht].
    now rewrite contains_nl_cons, E, Hh.
Qed.

Lemma strip_clean (f : string) :
  contains nl f = false -> truthy (strip f) = true ->
  clean_name (strip f) = true.
Proof.
  intros Hnl Ht. unfold clean_name. rewrite Ht. cbn [andb].
  assert (Hl : lstrip (strip f) = strip f).
  { unfold strip. pose proof (lstrip_head f) as H.
    destruct (lstrip f) as [|c t]; [reflexivity|].
    destruct (rstrip_keeps_head c t H) as [r E]. rewrite E.
    cbn [lstrip]. now rewrite H. }
  assert (Hr : rstrip (strip f) = strip f) by apply rstrip_idem.
  rewrite Hl, Hr, !String.eqb_refl. cbn [andb].
  unfold strip. now rewrite rstrip_no_nl by now apply lstrip_no_nl.
Qed.

(** Whatever the second [git] command prints or returns, every name that
    [get_changed_files] hands back is clean: not empty, without white space
    at either end, on one line. *)
Theorem changed_files_are_clean (w : World) (base : string)
    (names : list string) :
  result (Reviewer.get_changed_files w base) = Return names ->
  forallb clean_name names = true.
Proof.
  unfold Reviewer.get_changed_files.
  destruct (subprocess_run w _) as [p|e]; [|discriminate].
  destruct (returncode p =? 0)%Z; cbn [bind emit ret result snd];
    intros E; inversion E; subst; [|reflexivity].
  clear E. pose proof (split_no_nl (strip (stdout p))) as H.
  induction H as [|f l Hf Hl IH]; [reflexivity|].
  cbn [filter]. destruct (truthy (strip f)) eqn:Ht; [|exact IH].
  cbn [map forallb]. now rewrite (strip_clean f Hf Ht), IH.
Qed.

Lemma changed_files_are_clean_witness :
  forallb clean_name ["a.go"; "pkg/b c.go"] = true.
Proof.
  apply (changed_files_are_clean
           (example_world None two_sources
              (fun _ => inl {| returncode := 0;
                               stdout := nl ++ "  a.go " ++ nl ++ "   " ++ nl
                                         ++ "pkg/b c.go" ++ nl ++ nl;
                               stderr := EmptyString |}))
           "main").
  reflexivity.
Defined.

Lemma rstrip_app_space (s t : string) :
  rstrip t = EmptyString -> rstrip (s ++ t) = rstrip s.
Proof.
  intros Ht. induction s as [|c s IH]; [exact Ht|].
  cbn [append rstrip]. now rewrite IH.
Qed.

Lemma rstrip_app_keep (a b : string) :
  rstrip b <> EmptyString -> rstrip (a ++ b) = a ++ rstrip b.
Proof.
  intros Hb. induction a as [|c a IH]; [reflexivity|].
  cbn [append rstrip]. rewrite IH.
  destruct (a ++ rstrip b) as [|d r] eqn:E; [|reflexivity].
  destruct a; [|discriminate]. now elim Hb.
Qed.

Lemma split_line (a b : string) :
  contains nl a = false -> split LF (a ++ String LF b) = a :: split LF b.
Proof.
  induction a as [|c a IH]; intros H.
  - cbn [append split]. now rewrite Ascii.eqb_refl.
  - rewrite contains_nl_cons in H. apply orb_false_iff in H as [Hc H].
    cbn [append split]. now rewrite Hc, (IH H).
Qed.

Lemma split_one (a : string) : contains nl a = false -> split LF a = [a].
Proof.
  induction a as [|c a IH]; intros H; [reflexivity|].
  rewrite contains_nl_cons in H. apply orb_false_iff in H as [Hc H].
  cbn [split]. now rewrite Hc, (IH H).
Qed.

Lemma clean_name_spec (n : string) :
  clean_name n = true ->
  (exists c s, n = String c s /\ isspace c = false)
  /\ lstrip n = n /\ rstrip n = n /\ contains nl n = false.
Proof.
  unfold clean_name. intros H.
  apply andb_true_iff in H as [H Hnl].
  apply andb_true_iff in H as [H Hr].
  apply andb_true_iff in H as [Ht Hl].
  apply String.eqb_eq in Hl, Hr. apply negb_true_iff in Hnl.
  repeat split; try assumption.
  destruct n as [|c s]; [discriminate|].
  exists c, s. split; [reflexivity|]. exact (lstrip_fixed_head c s Hl).
Qed.

(** The text of clean lines without the last newline. *)
Lemma rstrip_lines (n : string) (rest : list string) :
  forallb clean_name (n :: rest) = true ->
  rstrip (lines_of (n :: rest)) = String.concat nl (n :: rest).
Proof.
  revert n. induction rest as [|m rest IH]; intros n H.
  - cbn [forallb] in H. apply andb_true_iff in H as [Hn _].
    destruct (clean_name_spec n Hn) as [_ [_ [Hr _]]].
    unfold lines_of. cbn [map join fold_right String.concat].
    rewrite append_nil_r. now rewrite rstrip_app_space.
  - cbn [forallb] in H. apply andb_true_iff in H as [Hn Hrest].
    specialize (IH m Hrest).
    change (lines_of (n :: m :: rest))
      with ((n ++ nl) ++ lines_of (m :: rest)).
    rewrite rstrip_app_keep.
    + rewrite IH.
      change (String.concat nl (n :: m :: rest))
        with (n ++ nl ++ String.concat nl (m :: rest)).
      now rewrite append_assoc.
    + rewrite IH.
      apply andb_true_iff in Hrest as [Hm _].
      destruct (clean_name_spec m Hm) as [[c [s [-> _]]] _].
      destruct rest; discriminate.
Qed.

Lemma split_clean_lines (n : string) (rest : list string) :
  forallb clean_name (n :: rest) = true ->
  split LF (String.concat nl (n :: rest)) = n :: rest.
Proof.
  revert n. induction rest as [|m rest IH]; intros n H;
    cbn [forallb] in H; apply andb_true_iff in H as [Hn Hrest];
    destruct (clean_name_spec n Hn) as [_ [_ [_ Hnl]]].
  - now apply split_one.
  - change (String.concat nl (n :: m :: rest))
      with (n ++ String LF (String.concat nl (m :: rest))).
    now rewrite (split_line _ _ Hnl), (IH m Hrest).
Qed.

Lemma strip_clean_names (names : list string) :
  forallb clean_name names = true ->
  map strip (filter (fun f => truthy (strip f)) names) = names.
Proof.
  induction names as [|n names IH]; [reflexivity|].
  cbn [forallb]. intros H. apply andb_true_iff in H as [Hn H].
  destruct (clean_name_spec n Hn) as [[c [s [E _]]] [Hl [Hr _]]].
  assert (Hs : strip n = n) by (unfold strip; now rewrite Hl, Hr).
  cbn [filter]. rewrite Hs.
  assert (Ht : truthy n = true) by (now rewrite E).
  rewrite Ht. cbn [map]. now rewrite Hs, (IH H).
Qed.

(** A round trip: when the second command succeeds and prints clean names,
    one on each line, [get_changed_files] hands back exactly those names, in
    their order.  A clean name is not empty, holds no newline and neither
    begins nor ends with a character that [str.strip] removes; the names of
    [git] are such, and ASCII as long as it quotes what is not. *)
Theorem changed_files_round_trip (w : World) (base : string)
    (p : CompletedProcess) (names : list string) :
  subprocess_run w ["git"; "diff"; "--name-only"; base; "--"; "*.go"] = inl p ->
  returncode p = 0%Z ->
  stdout p = lines_of names ->
  forallb clean_name names = true ->
  Reviewer.get_changed_files w base
  = ([EvSubprocess ["git"; "diff"; "--name-only"; base; "--"; "*.go"]],
     Return names).
Proof.
  intros Hrun Hrc Hout Hclean.
  unfold Reviewer.get_changed_files. rewrite Hrun, Hrc, Hout.
  cbn [Z.eqb bind emit ret app]. do 3 f_equal.
  destruct names as [|n rest]; [reflexivity|].
  assert (Hstrip : strip (lines_of (n :: rest)) = String.concat nl (n :: rest)).
  { unfold strip.
    assert (Hl : lstrip (lines_of (n :: rest)) = lines_of (n :: rest)).
    { pose proof Hclean as H. cbn [forallb] in H.
      apply andb_true_iff in H as [Hn _].
      destruct (clean_name_spec n Hn) as [[c [s [-> Hc]]] _].
      unfold lines_of. cbn [map join fold_right append lstrip].
      now rewrite Hc. }
    rewrite Hl. now apply rstrip_lines. }
  rewrite Hstrip, (split_clean_lines n rest Hclean).
  now apply strip_clean_names.
Qed.

Lemma changed_files_round_trip_witness :
  Reviewer.get_changed_files changed_repo "main"
  = ([EvSubprocess ["git"; "diff"; "--name-only"; "main"; "--"; "*.go"]],
     Return ["a.go"; "gone.go"]).
Proof.
  apply (changed_files_round_trip changed_repo "main"
           {| returncode := 0;
              stdout := "a.go" ++ nl ++ "gone.go" ++ nl;
              stderr := EmptyString |}
           ["a.go"; "gone.go"]); reflexivity.
Defined.

(** ** More on discovery *)

Lemma endswith_name (suf : string) (p : path) :
  contains "/" suf = false -> endswith "." suf = false ->
  endswith (str p) suf = endswith (name_of p) suf.
Proof.
  intros Hslash Hdot.
  destruct p as [|x p].
  - cbn [str name_of last]. rewrite Hdot. symmetry.
    cbn [endswith]. rewrite orb_false_r. apply String.eqb_neq.
    intros <-. discriminate.
  - destruct (@exists_last _ (x :: p)) as [q [n E]]; [discriminate|].
    rewrite E. unfold name_of. rewrite last_last.
    destruct q as [|y q]; [reflexivity|].
    unfold str. rewrite concat_snoc by discriminate.
    change ("/" ++ n) with (String "/" n).
    destruct ((y :: q) ++ [n])%list eqn:El; [destruct q; discriminate|].
    now apply endswith_past_slash.
Qed.

Lemma endswith_contains (s suf : string) :
  endswith s suf = true -> contains suf s = true.
Proof.
  intros H. apply endswith_spec in H as [a ->].
  rewrite <- (append_nil_r suf) at 2. apply contains_intro.
Qed.

Lemma tester_find_test_files_run (w : World) (directory : path) :
  Tester.find_test_files w directory
  = ([EvRglob (str directory) (Star "_test.go")],
     Return (sorted (filter (fun s => endswith s "_test.go")
                            (map str (descendants w directory))))).
Proof.
  unfold Tester.find_test_files, rglob. cbn [bind emit ret app].
  do 3 f_equal. rewrite filter_map_swap. f_equal. apply filter_ext.
  intros p. cbn [fnmatch]. symmetry. now apply endswith_name.
Qed.

(** [find_test_files] asks once for the entries below the directory whose
    name ends in "_test.go" and returns exactly their paths, each as often
    as it was found, in lexicographic order. *)
Theorem find_test_files_sorted_exact (w : World) (directory : path) :
  exists l,
    Tester.find_test_files w directory
    = ([EvRglob (str directory) (Star "_test.go")], Return l)
    /\ lex_sorted l
    /\ Permutation l (filter (fun s => endswith s "_test.go")
                             (map str (descendants w directory))).
Proof.
  eexists. split; [apply tester_find_test_files_run|].
  split; [apply sorted_lex_sorted | apply sorted_perm].
Qed.

Lemma in_sorted (l : list string) (x : string) : In x (sorted l) <-> In x l.
Proof.
  split; apply Permutation_in;
    [apply sorted_perm | apply Permutation_sym, sorted_perm].
Qed.

Lemma tester_go_files_unmarked (w : World) (files : option (list string))
    (gf : list string) (f : string) :
  result (Tester.go_files w files) = Return gf -> In f gf ->
  endswith f ".go" = true /\ contains "_test.go" f = false.
Proof.
  unfold Tester.go_files. destruct (files_given files).
  - cbn [ret result snd]. intros E Hin. inversion E; subst.
    apply filter_In in Hin as [_ H]. apply andb_true_iff in H as [H1 H2].
    now apply negb_true_iff in H2.
  - rewrite tester_find_go_files_run. cbn [result snd].
    intros E Hin. inversion E; subst.
    apply in_sorted, filter_In in Hin as [_ H].
    apply andb_true_iff in H as [H1 H2]. now apply negb_true_iff in H2.
Qed.

(** In the tester no path stands in both sections of the context: whatever
    the file list, a path selected as source code is not among the existing
    tests found in a directory. *)
Theorem tester_sections_disjoint (w : World) (files : option (list string))
    (directory : path) (gf tests : list string) :
  result (Tester.go_files w files) = Return gf ->
  result (Tester.find_test_files w directory) = Return tests ->
  forallb (fun f => negb (mem f tests)) gf = true.
Proof.
  intros Hgf Htests. apply forallb_forall. intros f Hf.
  destruct (tester_go_files_unmarked w files gf f Hgf Hf) as [_ Hno].
  apply negb_true_iff. destruct (mem f tests) eqn:E; [|reflexivity].
  unfold mem in E. apply existsb_exists in E as [t [Ht Eq]].
  apply String.eqb_eq in Eq. subst t.
  rewrite tester_find_test_files_run in Htests. cbn [result snd] in Htests.
  inversion Htests; subst.
  apply in_sorted, filter_In in Ht as [_ Ht].
  apply endswith_contains in Ht. congruence.
Qed.

Lemma tester_sections_disjoint_witness :
  forallb (fun f => negb (mem f ["pkg/util_test.go"]))
          ["main.go"; "pkg/util.go"] = true.
Proof.
  apply (tester_sections_disjoint with_tests None []
           ["main.go"; "pkg/util.go"] ["pkg/util_test.go"]); reflexivity.
Defined.

Lemma filter_all {A : Type} (f : A -> bool) (l : list A) :
  (forall x, In x l -> f x = true) -> filter f l = l.
Proof.
  intros H. apply forallb_filter_id, forallb_forall, H.
Qed.

(** Discovery and the explicit filter agree: handing the list a script
    discovers in the working directory back to it as its file list selects
    the same files again, in each of the three scripts. *)
Theorem discovered_list_is_kept (w : World) (la lr lt : list string) :
  result (Architect.find_go_files w []) = Return la ->
  result (Reviewer.find_go_files w []) = Return lr ->
  result (Tester.find_go_files w []) = Return lt ->
  result (Architect.go_files w (Some la)) = Return la
  /\ result (Reviewer.go_files w (Some lr)) = Return lr
  /\ result (Tester.go_files w (Some lt)) = Return lt.
Proof.
  intros Ha Hr Ht.
  pose proof Ha as Ha'. pose proof Hr as Hr'. pose proof Ht as Ht'.
  rewrite architect_find_go_files_run in Ha'.
  rewrite reviewer_find_go_files_run in Hr'.
  rewrite tester_find_go_files_run in Ht'.
  cbn [result snd] in Ha', Hr', Ht'.
  injection Ha' as Ea. injection Hr' as Er. injection Ht' as Et.
  unfold Architect.go_files, Reviewer.go_files, Tester.go_files.
  cbn [files_given files_or_nil].
  repeat split.
  - destruct la as [|x la]; [exact Ha|]. cbn [nonempty ret result snd].
    f_equal. apply filter_all. intros f Hf. rewrite <- Ea in Hf.
    apply in_sorted, filter_In in Hf as [_ H].
    now apply andb_true_iff in H as [H _].
  - destruct lr as [|x lr]; [exact Hr|]. cbn [nonempty ret result snd].
    f_equal. apply filter_all. intros f Hf. rewrite <- Er in Hf.
    now apply in_sorted, filter_In in Hf as [_ H].
  - destruct lt as [|x lt]; [exact Ht|]. cbn [nonempty ret result snd].
    f_equal. apply filter_all. intros f Hf. rewrite <- Et in Hf.
    now apply in_sorted, filter_In in Hf as [_ H].
Qed.

Lemma discovered_list_is_kept_witness :
  result (Architect.go_files with_tests (Some ["main.go"; "pkg/util.go"]))
  = Return ["main.go"; "pkg/util.go"]
  /\ result (Reviewer.go_files with_tests
               (Some ["main.go"; "pkg/util.go"; "pkg/util_test.go"]))
     = Return ["main.go"; "pkg/util.go"; "pkg/util_test.go"]
  /\ result (Tester.go_files with_tests (Some ["main.go"; "pkg/util.go"]))
     = Return ["main.go"; "pkg/util.go"].
Proof.
  apply (discovered_list_is_kept with_tests); reflexivity.
Defined.

(** A file list that is not empty is never traded for a scan: when none of
    its entries passes the filter, the pipeline returns its
    "No Go files found ..." message at once, having looked at nothing and
    sent nothing. *)
Theorem explicit_list_without_sources (w : World) (prompt base : string)
    (files : list string) :
  nonempty files = true ->
  (filter (fun f => endswith f ".go") files = [] ->
   Architect.run_review w prompt (Some files)
   = ([], Return "No Go files found to review.")
   /\ Reviewer.run_review w prompt (Some files) false base
      = ([], Return "No Go files found to review."))
  /\ (filter (fun f => endswith f ".go" && negb (contains "_test.go" f)) files
      = [] ->
      Tester.run_test_generation w prompt (Some files)
      = ([], Return "No Go files found to generate tests for.")).
Proof.
  intros Hne. split.
  - intros Hnone.
    unfold Architect.run_review, Architect.go_files,
      Reviewer.run_review, Reviewer.go_files.
    cbn [files_given files_or_nil]. rewrite Hne, Hnone. now split.
  - intros Hnone.
    unfold Tester.run_test_generation, Tester.go_files.
    cbn [files_given files_or_nil]. now rewrite Hne, Hnone.
Qed.

Lemma explicit_list_without_sources_witness :
  (Architect.run_review with_tests "prompt" (Some ["README.md"; "go.mod"])
   = ([], Return "No Go files found to review.")
   /\ Reviewer.run_review with_tests "prompt" (Some ["README.md"; "go.mod"])
        false "main"
      = ([], Return "No Go files found to review."))
  /\ Tester.run_test_generation with_tests "prompt"
       (Some ["pkg/util_test.go"; "go.mod"])
     = ([], Return "No Go files found to generate tests for.").
Proof.
  split.
  - apply (explicit_list_without_sources with_tests "prompt" "main"
             ["README.md"; "go.mod"]); reflexivity.
  - apply (explicit_list_without_sources with_tests "prompt" "main"
             ["pkg/util_test.go"; "go.mod"]); reflexivity.
Defined.

(** ** The architect's API descriptions *)

Lemma lower_app (a b : string) : lower (a ++ b) = lower a ++ lower b.
Proof. induction a as [|c a IH]; cbn [append lower]; now rewrite ?IH. Qed.

Lemma find_api_specs_run (w : World) (directory : path) :
  let root := str (directory ++ ["openapi.yaml"])%list in
  Architect.find_api_specs w directory
  = ([EvRglob (str directory) (Star ".yaml");
      EvRglob (str directory) (Star ".yml");
      EvRglob (str directory) (Star ".json");
      EvExists root],
     Return (if path_exists w root && negb (mem root (scanned_specs w directory))
             then (scanned_specs w directory ++ [root])%list
             else scanned_specs w directory)).
Proof.
  intros root. unfold Architect.find_api_specs, rglob, scanned_specs.
  cbn [for_each bind emit ret app flat_map]. fold root.
  rewrite app_nil_r.
  change (fun s => contains "openapi" (lower s) || contains "swagger" (lower s))
    with mentions_api.
  rewrite <- !app_assoc.
  now destruct (path_exists w root && negb (mem root _)).
Qed.

Lemma root_mentions_api (directory : path) :
  mentions_api (str (directory ++ ["openapi.yaml"])%list) = true.
Proof.
  unfold mentions_api. apply orb_true_iff. left.
  destruct directory as [|x d]; [reflexivity|].
  unfold str. rewrite concat_snoc by discriminate.
  destruct ((x :: d) ++ ["openapi.yaml"])%list eqn:E;
    [destruct d; discriminate|].
  rewrite !lower_app. apply contains_app_l, contains_app_l. reflexivity.
Qed.

Lemma mem_count_occ (x : string) (l : list string) :
  count_occ string_dec l x = 0%nat <-> mem x l = false.
Proof.
  unfold mem. induction l as [|y l IH]; [easy|].
  cbn [count_occ existsb]. destruct (string_dec y x) as [->|N].
  - rewrite String.eqb_refl. easy.
  - destruct (String.eqb_spec x y) as [->|_]; [now elim N | exact IH].
Qed.

(** [find_api_specs] scans three times, tests once whether the root
    description exists, and opens nothing.  What it returns is the list the
    scans kept, in their order, with the root "openapi.yaml" put at its end
    when that exists and the scans did not list it.  So every path returned
    has "openapi" or "swagger" in it, in some case; the root description is
    in the list whenever it exists, and the last step never adds it a second
    time: it is there as often as the scans listed it, or once. *)
Theorem find_api_specs_found (w : World) (directory : path) :
  let root := str (directory ++ ["openapi.yaml"])%list in
  let scanned := scanned_specs w directory in
  let specs := if path_exists w root && negb (mem root scanned)
               then (scanned ++ [root])%list
               else scanned in
  Architect.find_api_specs w directory
  = ([EvRglob (str directory) (Star ".yaml");
      EvRglob (str directory) (Star ".yml");
      EvRglob (str directory) (Star ".json");
      EvExists root],
     Return specs)
  /\ forallb mentions_api specs = true
  /\ count_occ string_dec specs root
     = Nat.max (count_occ string_dec scanned root)
               (if path_exists w root then 1 else 0)
  /\ (forall s, In s specs
                <-> In s scanned \/ (s = root /\ path_exists w root = true)).
Proof.
  intros root scanned specs. split; [apply find_api_specs_run|].
  assert (Hscan : forallb mentions_api scanned = true).
  { unfold scanned, scanned_specs. cbn [flat_map].
    rewrite app_nil_r, !forallb_app. now rewrite !forallb_filter. }
  subst specs. destruct (path_exists w root) eqn:Ex; cbn [andb].
  - destruct (mem root scanned) eqn:Em; cbn [negb].
    + split; [exact Hscan|]. split.
      * destruct (count_occ string_dec scanned root) eqn:Ec; [|lia].
        apply mem_count_occ in Ec. congruence.
      * intros s. split; [now left|].
        intros [H|[-> _]]; [exact H|].
        unfold mem in Em. apply existsb_exists in Em as [x [Hx Ex']].
        apply String.eqb_eq in Ex'. now subst x.
    + split; [|split].
      * rewrite forallb_app, Hscan. cbn [forallb].
        unfold root. now rewrite root_mentions_api.
      * rewrite count_occ_app. apply mem_count_occ in Em. rewrite Em.
        cbn [count_occ]. now destruct (string_dec root root).
      * intros s. rewrite in_app_iff. cbn [In]. split.
        -- intros [H|[<-|[]]]; [now left | now right].
        -- intros [H|[-> _]]; [now left | right; now left].
  - split; [exact Hscan|]. split; [lia|]. intros s. split; [now left|].
    intros [H|[_ H]]; [exact H | discriminate].
Qed.

Example api_specs_found :
  Architect.find_api_specs spec_world []
  = ([EvRglob "." (Star ".yaml"); EvRglob "." (Star ".yml");
      EvRglob "." (Star ".json"); EvExists "openapi.yaml"],
     Return ["openapi.yaml"; "api/Swagger.json"])
  /\ result (Architect.find_api_specs outside_repo []) = Return [].
Proof. split; reflexivity. Qed.

Lemma add_spec_run (w : World) (ctx spec : string) :
  Architect.add_spec w ctx spec
  = ([EvOpenRead spec], Return (ctx ++ spec_block w spec)).
Proof.
  unfold Architect.add_spec, spec_block, error_block.
  destruct (open_read w spec); cbn [bind emit ret app];
    now rewrite ?append_assoc.
Qed.

Lemma add_specs_run (w : World) (specs : list string) (ctx : string) :
  for_each specs (Architect.add_spec w) ctx
  = (map EvOpenRead specs, Return (ctx ++ join (map (spec_block w) specs))).
Proof.
  revert ctx. induction specs as [|s specs IH]; intros ctx.
  - cbn. unfold ret. now rewrite append_nil_r.
  - cbn [for_each map join fold_right]. rewrite add_spec_run.
    cbn [bind]. rewrite IH. cbn [app]. now rewrite append_assoc.
Qed.

Lemma requests_of_probing {A : Type} (m : M A) :
  probing m -> requests (trace m) = [].
Proof. intros H. now destruct (probes_show_nothing _ H). Qed.

Lemma requests_create (w : World) (prompt content : string) :
  requests (trace (create w prompt content))
  = [ {| model := "claude-sonnet-4-20250514";
         max_tokens := 4096;
         system := prompt;
         user_content := content |} ].
Proof.
  unfold create. cbn [bind emit]. now destruct (messages_create w _).
Qed.

Lemma architect_context_run (w : World) (gf specs : list string)
    (ts : list event) :
  Architect.find_api_specs w [] = (ts, Return specs) ->
  Architect.code_context w gf
  = ((map EvOpenRead gf ++ ts
      ++ (if nonempty specs then map EvOpenRead specs else []))%list,
     Return ("# Code to Review" ++ nl ++ nl ++ join (map (block w) gf)
             ++ (if nonempty specs
                 then nl ++ "# API Specifications" ++ nl ++ nl
                      ++ join (map (spec_block w) specs)
                 else EmptyString))).
Proof.
  intros Es. unfold Architect.code_context.
  rewrite append_files_run, bind_return, Es, bind_return.
  destruct specs as [|s specs]; cbn [nonempty].
  - cbn [ret trace result fst snd]. now rewrite ?append_nil_r, ?append_assoc.
  - rewrite add_specs_run. cbn [trace result fst snd].
    now rewrite ?append_assoc.
Qed.

Lemma tester_context_run (w : World) (gf : list string) :
  let tests := sorted (filter (fun s => endswith s "_test.go")
                              (map str (descendants w []))) in
  Tester.code_context w gf
  = ((map EvOpenRead gf ++ [EvRglob "." (Star "_test.go")]
      ++ (if nonempty tests then map EvOpenRead tests else []))%list,
     Return ("# Source Code to Test" ++ nl ++ nl ++ join (map (block w) gf)
             ++ (if nonempty tests
                 then nl ++ "# Existing Tests (for reference)" ++ nl ++ nl
                      ++ join (map (block w) tests)
                 else EmptyString))).
Proof.
  intros tests. unfold Tester.code_context.
  rewrite append_files_run, bind_return, tester_find_test_files_run.
  fold tests. rewrite bind_return.
  destruct tests as [|s l]; cbn [nonempty].
  - cbn [ret trace result fst snd str]. now rewrite ?append_nil_r, ?append_assoc.
  - rewrite append_files_run. cbn [trace result fst snd str].
    now rewrite ?append_assoc.
Qed.

(** The one request of the architect, put together: the heading and the
    block of each selected file, then, when API descriptions were found,
    their heading and the block of each description in the order found; an
    unreadable description has its error block and stops nothing. *)
Theorem architect_request_content (w : World) (prompt : string)
    (files : option (list string)) (gf specs : list string) :
  result (Architect.go_files w files) = Return gf ->
  nonempty gf = true ->
  result (Architect.find_api_specs w []) = Return specs ->
  requests (trace (Architect.run_review w prompt files))
  = [ {| model := "claude-sonnet-4-20250514";
         max_tokens := 4096;
         system := prompt;
         user_content :=
           "Please review the following Go API code for architectural best practices:"
           ++ nl ++ nl
           ++ "# Code to Review" ++ nl ++ nl
           ++ join (map (block w) gf)
           ++ (if nonempty specs
               then nl ++ "# API Specifications" ++ nl ++ nl
                    ++ join (map (spec_block w) specs)
               else EmptyString) |} ].
Proof.
  intros Hgf Hne Hspecs.
  pose proof (probing_architect_go_files w files) as Pg.
  pose proof (probing_find_api_specs w []) as Ps.
  apply requests_of_probing in Pg, Ps.
  destruct (Architect.find_api_specs w []) as [ts os] eqn:Es.
  cbn [result snd trace fst] in Hspecs, Ps. subst os.
  unfold Architect.run_review.
  rewrite trace_bind, requests_app, Pg, Hgf, Hne. cbn [negb app].
  rewrite (architect_context_run w gf specs ts Es), bind_return.
  cbn [trace fst]. rewrite !requests_app, requests_reads, Ps. cbn [app].
  rewrite requests_create.
  destruct specs; cbn [nonempty]; rewrite ?requests_reads; cbn [requests app];
    now rewrite ?append_assoc.
Qed.

Lemma architect_request_content_witness :
  requests (trace (Architect.run_review spec_world "prompt" None))
  = [ {| model := "claude-sonnet-4-20250514";
         max_tokens := 4096;
         system := "prompt";
         user_content :=
           "Please review the following Go API code for architectural best practices:"
           ++ nl ++ nl
           ++ "# Code to Review" ++ nl ++ nl
           ++ ("### File: main.go" ++ nl ++ "```go" ++ nl ++ "package main" ++ nl
               ++ "```" ++ nl)
           ++ (nl ++ "# API Specifications" ++ nl ++ nl
               ++ ("### File: openapi.yaml" ++ nl ++ "```yaml" ++ nl
                   ++ "openapi: 3.0.0" ++ nl ++ "```" ++ nl)
               ++ ("### File: api/Swagger.json" ++ nl ++ "```json" ++ nl
                   ++ "{}" ++ nl ++ "```" ++ nl)) |} ].
Proof.
  apply (architect_request_content spec_world "prompt" None
           ["main.go"] ["openapi.yaml"; "api/Swagger.json"]); reflexivity.
Defined.

(** The one request of the tester, put together: the heading and the block
    of each selected source, then, when tests exist in the working
    directory, their heading and the block of each, and at the end the
    sentence that asks for complete test files. *)
Theorem tester_request_content (w : World) (prompt : string)
    (files : option (list string)) (gf tests : list string) :
  result (Tester.go_files w files) = Return gf ->
  nonempty gf = true ->
  result (Tester.find_test_files w []) = Return tests ->
  requests (trace (Tester.run_test_generation w prompt files))
  = [ {| model := "claude-sonnet-4-20250514";
         max_tokens := 4096;
         system := prompt;
         user_content :=
           "Please generate comprehensive tests for the following Go code:"
           ++ nl ++ nl
           ++ "# Source Code to Test" ++ nl ++ nl
           ++ join (map (block w) gf)
           ++ (if nonempty tests
               then nl ++ "# Existing Tests (for reference)" ++ nl ++ nl
                    ++ join (map (block w) tests)
               else EmptyString)
           ++ nl ++ nl ++ "Provide complete, runnable test files." |} ].
Proof.
  intros Hgf Hne Htests.
  pose proof (probing_tester_go_files w files) as Pg.
  apply requests_of_probing in Pg.
  rewrite tester_find_test_files_run in Htests.
  cbn [result snd] in Htests. injection Htests as Et.
  unfold Tester.run_test_generation.
  rewrite trace_bind, requests_app, Pg, Hgf, Hne. cbn [negb app].
  rewrite (tester_context_run w gf), Et, bind_return.
  cbn [trace fst]. rewrite !requests_app, requests_reads. cbn [requests app].
  rewrite requests_create.
  destruct tests; cbn [nonempty]; rewrite ?requests_reads; cbn [requests app];
    now rewrite ?append_assoc.
Qed.

Lemma tester_request_content_witness :
  requests (trace (Tester.run_test_generation with_tests "prompt" None))
  = [ {| model := "claude-sonnet-4-20250514";
         max_tokens := 4096;
         system := "prompt";
         user_content :=
           "Please generate comprehensive tests for the following Go code:"
           ++ nl ++ nl
           ++ "# Source Code to Test" ++ nl ++ nl
           ++ join (map (block with_tests) ["main.go"; "pkg/util.go"])
           ++ (nl ++ "# Existing Tests (for reference)" ++ nl ++ nl
               ++ join (map (block with_tests) ["pkg/util_test.go"]))
           ++ nl ++ nl ++ "Provide complete, runnable test files." |} ].
Proof.
  apply (tester_request_content with_tests "prompt" None
           ["main.go"; "pkg/util.go"] ["pkg/util_test.go"]); reflexivity.
Defined.

(** ** The label of a description's fence *)

Lemma contains_char_cons (c d : ascii) (s : string) :
  contains (String c EmptyString) (String d s)
  = Ascii.eqb d c || contains (String c EmptyString) s.
Proof.
  cbn [contains]. f_equal. cbn [prefix].
  destruct (ascii_dec c d) as [<-|N].
  - rewrite Ascii.eqb_refl. now destruct s.
  - symmetry. apply Ascii.eqb_neq. congruence.
Qed.

Lemma after_last_none (c : ascii) (s : string) :
  contains (String c EmptyString) s = false -> after_last c s = None.
Proof.
  induction s as [|d s IH]; [reflexivity|].
  rewrite contains_char_cons. intros H.
  apply orb_false_iff in H as [Hd H].
  cbn [after_last]. now rewrite (IH H), Hd.
Qed.

Lemma after_last_app (c : ascii) (a r : string) :
  contains (String c EmptyString) r = false ->
  after_last c (a ++ String c r) = Some r.
Proof.
  intros H. induction a as [|d a IH].
  - cbn [append after_last].
    now rewrite (after_last_none c r H), Ascii.eqb_refl.
  - cbn [append after_last]. now rewrite IH.
Qed.

Lemma length_append (a b : string) :
  String.length (a ++ b) = (String.length a + String.length b)%nat.
Proof. induction a as [|c a IH]; cbn [append String.length]; lia. Qed.

Lemma contains_app_false_r (sub a b : string) :
  contains sub (a ++ b) = false -> contains sub b = false.
Proof.
  intros H. destruct (contains sub b) eqn:E; [|reflexivity].
  now rewrite (contains_app_l sub a b E) in H.
Qed.

Lemma path_name_of_str (parent : path) (name : string) :
  contains "/" name = false ->
  path_name (str (parent ++ [name])%list) = name.
Proof.
  intros H. unfold path_name.
  destruct parent as [|x parent].
  - cbn [app str String.concat]. now rewrite (after_last_none "/" name H).
  - unfold str. rewrite concat_snoc by discriminate.
    destruct ((x :: parent) ++ [name])%list eqn:E;
      [destruct parent; discriminate|].
    change ("/" ++ name) with (String "/" name).
    now rewrite (after_last_app "/" _ name H).
Qed.

Lemma suffix_of_str (parent : path) (stem ext : string) :
  contains "/" (stem ++ String "." ext) = false ->
  contains "." ext = false ->
  drop_first (suffix_of (str (parent ++ [(stem ++ String "." ext)%string])%list))
  = if truthy stem then ext else EmptyString.
Proof.
  intros Hslash Hdot. unfold suffix_of.
  rewrite (path_name_of_str parent _ Hslash).
  rewrite (after_last_app "." stem ext Hdot).
  rewrite length_append. cbn [String.length].
  replace (String.length stem + S (String.length ext) - String.length ext - 1)%nat
    with (String.length stem) by lia.
  destruct stem as [|c stem]; cbn [String.length truthy String.eqb negb].
  - reflexivity.
  - destruct ext as [|d ext]; cbn [String.length].
    + replace (S (String.length stem) <? S (String.length stem) + 1 - 1)%nat
        with false by (symmetry; apply Nat.ltb_ge; lia).
      reflexivity.
    + replace (S (String.length stem)
               <? S (String.length stem) + S (S (String.length ext)) - 1)%nat
        with true by (symmetry; apply Nat.ltb_lt; lia).
      reflexivity.
Qed.

(** The fence of a readable API description is labelled with the extension
    of its name, the text after the last dot: "yaml", "yml", "json".  A name
    that begins with its only dot (".yaml") counts as having no extension
    and gets an empty label.  (Stated for stems that do not begin with a
    dot, on which the versions of [pathlib] agree.) *)
Theorem spec_fence_is_extension (w : World) (ctx content : string)
    (parent : path) (stem ext : string) :
  contains "/" (stem ++ String "." ext) = false ->
  contains "." ext = false ->
  startswith stem "." = false ->
  open_read w (str (parent ++ [(stem ++ String "." ext)%string])%list) = inl content ->
  let spec := str (parent ++ [(stem ++ String "." ext)%string])%list in
  Architect.add_spec w ctx spec
  = ([EvOpenRead spec],
     Return (ctx ++ "### File: " ++ spec ++ nl
             ++ "```" ++ (if truthy stem then ext else EmptyString) ++ nl
             ++ content ++ nl ++ "```" ++ nl)).
Proof.
  intros Hslash Hdot _ Hread spec.
  rewrite add_spec_run. unfold spec_block. fold spec in Hread.
  rewrite Hread. unfold spec.
  now rewrite (suffix_of_str parent stem ext Hslash Hdot).
Qed.

Lemma spec_fence_is_extension_witness :
  Architect.add_spec spec_world "# API Specifications" "api/Swagger.json"
  = ([EvOpenRead "api/Swagger.json"],
     Return ("# API Specifications" ++ "### File: " ++ "api/Swagger.json" ++ nl
             ++ "```" ++ "json" ++ nl ++ "{}" ++ nl ++ "```" ++ nl)).
Proof.
  apply (spec_fence_is_extension spec_world "# API Specifications" "{}"
           ["api"] "Swagger" "json"); reflexivity.
Defined.

(** ** Whole runs of [main] *)

Lemma architect_main_body (w : World) (prompt key : string)
    (a : Architect.Args) :
  environ w "ANTHROPIC_API_KEY" = Some key -> key <> EmptyString ->
  Architect.main w prompt a
  = after_key_check w "Running Go Architecture Review..." "Review"
      (Architect.run_review w prompt (Architect.files a)) (Architect.output a).
Proof.
  intros Hkey Hne. unfold Architect.main, env_missing.
  now rewrite Hkey, (truthy_true key Hne).
Qed.

Lemma reviewer_main_body (w : World) (prompt key : string)
    (r : Reviewer.Args) :
  environ w "ANTHROPIC_API_KEY" = Some key -> key <> EmptyString ->
  Reviewer.main w prompt r
  = after_key_check w "Running Go Code Review..." "Review"
      (Reviewer.run_review w prompt (Reviewer.files r) (Reviewer.diff r)
         (Reviewer.base r))
      (Reviewer.output r).
Proof.
  intros Hkey Hne. unfold Reviewer.main, env_missing.
  now rewrite Hkey, (truthy_true key Hne).
Qed.

Lemma tester_main_body (w : World) (prompt key : string) (t : Tester.Args) :
  environ w "ANTHROPIC_API_KEY" = Some key -> key <> EmptyString ->
  Tester.main w prompt t
  = after_key_check w "Generating Go Tests..." "Tests"
      (Tester.run_test_generation w prompt (Tester.files t)) (Tester.output t).
Proof.
  intros Hkey Hne. unfold Tester.main, env_missing.
  now rewrite Hkey, (truthy_true key Hne).
Qed.

Lemma after_key_check_trace (w : World) (banner what : string)
    (run : M string) (output : option string) :
  trace (after_key_check w banner what run output)
  = EvStderr (banner ++ nl ++ nl)
    :: (trace run ++ match result run with
                     | Return text => trace (route_output w what output text)
                     | _ => []
                     end)%list.
Proof.
  unfold after_key_check, print_stderr.
  rewrite trace_bind. cbn [emit trace result fst snd app].
  now rewrite trace_bind, append_assoc.
Qed.

Lemma after_key_check_result (w : World) (banner what : string)
    (run : M string) (output : option string) :
  result (after_key_check w banner what run output)
  = match result run with
    | Return text => result (route_output w what output text)
    | Raise e => Raise e
    | SysExit c => SysExit c
    end.
Proof.
  unfold after_key_check, print_stderr.
  rewrite result_bind. cbn [emit trace result fst snd].
  now rewrite result_bind.
Qed.

Lemma no_write_no_target (t : list event) (output : option string) :
  existsb is_write t = false ->
  Forall (fun e => write_target e = None \/ write_target e = output) t.
Proof.
  induction t as [|e t IH]; [constructor|].
  cbn [existsb]. intros H. apply orb_false_iff in H as [He Ht].
  constructor; [|now apply IH]. left. now destruct e.
Qed.

Lemma after_key_check_targets (w : World) (banner what : string)
    (run : M string) (output : option string) :
  gathers_then_asks run ->
  Forall (fun e => write_target e = None \/ write_target e = output)
    (trace (after_key_check w banner what run output)).
Proof.
  intros Hrun. rewrite after_key_check_trace.
  constructor; [now left|]. apply Forall_app. split.
  - apply no_write_no_target.
    now destruct (asks_once_in_silence run Hrun) as [_ [_ [_ Hw]]].
  - destruct (result run) as [text|e|c]; try constructor.
    rewrite route_output_run. destruct output as [p|].
    + destruct (truthy p).
      * destruct (open_write w p); [constructor|].
        destruct (write_text w p text); cbn [trace fst].
        -- constructor; [now right | constructor].
        -- constructor; [now right|]. constructor; [now right|].
           constructor; [now left | constructor].
      * constructor; [now left | constructor].
    + constructor; [now left | constructor].
Qed.

(** A script opens for writing, and writes through, no path but its
    destination: whatever the surroundings and the arguments, every event of
    [main] that opens or writes a file does so under the very text given
    with [--output]; with no destination there is no such event. *)
Theorem only_the_destination_is_written (w : World) (prompt : string)
    (a : Architect.Args) (r : Reviewer.Args) (t : Tester.Args) :
  Forall (fun e => write_target e = None
                   \/ write_target e = Architect.output a)
    (trace (Architect.main w prompt a))
  /\ Forall (fun e => write_target e = None
                      \/ write_target e = Reviewer.output r)
       (trace (Reviewer.main w prompt r))
  /\ Forall (fun e => write_target e = None
                      \/ write_target e = Tester.output t)
       (trace (Tester.main w prompt t)).
Proof.
  destruct (environ w "ANTHROPIC_API_KEY") as [key|] eqn:Hkey.
  - destruct (String.eqb_spec key EmptyString) as [->|Hne].
    + unfold Architect.main, Reviewer.main, Tester.main, env_missing.
      rewrite Hkey.
      repeat split; (constructor; [now left | constructor]).
    + rewrite (architect_main_body w prompt key a Hkey Hne),
        (reviewer_main_body w prompt key r Hkey Hne),
        (tester_main_body w prompt key t Hkey Hne).
      repeat split; apply after_key_check_targets.
      * apply architect_asks.
      * apply reviewer_asks.
      * apply tester_asks.
  - unfold Architect.main, Reviewer.main, Tester.main, env_missing.
    rewrite Hkey. repeat split; (constructor; [now left | constructor]).
Qed.

Example destination_opened_and_written :
  filter is_write
    (trace (Architect.main outside_repo "prompt"
              {| Architect.files := None; Architect.output := Some "review.md" |}))
  = [EvOpenWrite "review.md"; EvWrite "review.md" "LGTM"]
  /\ filter is_write
       (trace (Tester.main spec_world "prompt"
                 {| Tester.files := None; Tester.output := Some "latin1.md" |}))
     = [EvOpenWrite "latin1.md"]
  /\ filter is_write
       (trace (Reviewer.main changed_repo "prompt"
                 {| Reviewer.files := None; Reviewer.diff := true;
                    Reviewer.base := "main"; Reviewer.output := None |}))
     = [].
Proof. repeat split. Qed.





Lemma after_key_check_raise (w : World) (banner what e : string)
    (run : M string) (output : option string) :
  gathers_then_asks run -> result run = Raise e ->
  after_key_check w banner what run output
  = (EvStderr (banner ++ nl ++ nl) :: trace run, Raise e)
  /\ existsb is_write (trace (after_key_check w banner what run output)) = false
  /\ existsb on_stdout (trace (after_key_check w banner what run output))
     = false.
Proof.
  intros Hrun Hres.
  assert (E : after_key_check w banner what run output
              = (EvStderr (banner ++ nl ++ nl) :: trace run, Raise e)).
  { pose proof (after_key_check_trace w banner what run output) as Ht.
    pose proof (after_key_check_result w banner what run output) as Hr.
    rewrite Hres in Ht, Hr. rewrite app_nil_r in Ht.
    destruct (after_key_check w banner what run output) as [t o].
    cbn [trace result fst snd] in Ht, Hr. now subst. }
  destruct (asks_once_in_silence run Hrun) as [_ [Hout [_ Hw]]].
  split; [exact E|]. rewrite E. cbn [trace fst existsb is_write on_stdout orb].
  now split.
Qed.

(** When the pipeline ends with an exception (the service cannot be
    reached, [git] cannot be started), [main] ends with the same exception
    right after it: no confirmation follows, the script has opened no file
    for writing, the destination no more than any other, and nothing is
    printed on standard output. *)
Theorem failed_pipeline_leaves_no_output (w : World) (prompt key e : string)
    (a : Architect.Args) (r : Reviewer.Args) (t : Tester.Args) :
  environ w "ANTHROPIC_API_KEY" = Some key -> key <> EmptyString ->
  (let run := Architect.run_review w prompt (Architect.files a) in
   result run = Raise e ->
   Architect.main w prompt a
   = (EvStderr ("Running Go Architecture Review..." ++ nl ++ nl) :: trace run,
      Raise e)
   /\ existsb is_write (trace (Architect.main w prompt a)) = false
   /\ existsb on_stdout (trace (Architect.main w prompt a)) = false)
  /\ (let run := Reviewer.run_review w prompt (Reviewer.files r)
                   (Reviewer.diff r) (Reviewer.base r) in
      result run = Raise e ->
      Reviewer.main w prompt r
      = (EvStderr ("Running Go Code Review..." ++ nl ++ nl) :: trace run,
         Raise e)
      /\ existsb is_write (trace (Reviewer.main w prompt r)) = false
      /\ existsb on_stdout (trace (Reviewer.main w prompt r)) = false)
  /\ (let run := Tester.run_test_generation w prompt (Tester.files t) in
      result run = Raise e ->
      Tester.main w prompt t
      = (EvStderr ("Generating Go Tests..." ++ nl ++ nl) :: trace run, Raise e)
      /\ existsb is_write (trace (Tester.main w prompt t)) = false
      /\ existsb on_stdout (trace (Tester.main w prompt t)) = false).
Proof.
  intros Hkey Hne.
  rewrite (architect_main_body w prompt key a Hkey Hne),
    (reviewer_main_body w prompt key r Hkey Hne),
    (tester_main_body w prompt key t Hkey Hne).
  repeat apply conj; intros run Hres; apply after_key_check_raise; trivial.
  - apply architect_asks.
  - apply reviewer_asks.
  - apply tester_asks.
Qed.

Lemma failed_pipeline_leaves_no_output_witness :
  (Architect.main offline_world "prompt"
     {| Architect.files := Some ["a.go"]; Architect.output := Some "review.md" |}
   = (EvStderr ("Running Go Architecture Review..." ++ nl ++ nl)
      :: trace (Architect.run_review offline_world "prompt" (Some ["a.go"])),
      Raise "Connection error.")
   /\ existsb is_write
        (trace (Architect.main offline_world "prompt"
                  {| Architect.files := Some ["a.go"];
                     Architect.output := Some "review.md" |})) = false
   /\ existsb on_stdout
        (trace (Architect.main offline_world "prompt"
                  {| Architect.files := Some ["a.go"];
                     Architect.output := Some "review.md" |})) = false)
  /\ (Reviewer.main offline_world "prompt"
        {| Reviewer.files := None; Reviewer.diff := true;
           Reviewer.base := "main"; Reviewer.output := Some "review.md" |}
      = (EvStderr ("Running Go Code Review..." ++ nl ++ nl)
         :: trace (Reviewer.run_review offline_world "prompt" None true "main"),
         Raise "Connection error.")
      /\ existsb is_write
           (trace (Reviewer.main offline_world "prompt"
                     {| Reviewer.files := None; Reviewer.diff := true;
                        Reviewer.base := "main";
                        Reviewer.output := Some "review.md" |})) = false
      /\ existsb on_stdout
           (trace (Reviewer.main offline_world "prompt"
                     {| Reviewer.files := None; Reviewer.diff := true;
                        Reviewer.base := "main";
                        Reviewer.output := Some "review.md" |})) = false)
  /\ (Tester.main offline_world "prompt"
        {| Tester.files := None; Tester.output := None |}
      = (EvStderr ("Generating Go Tests..." ++ nl ++ nl)
         :: trace (Tester.run_test_generation offline_world "prompt" None),
         Raise "Connection error.")
      /\ existsb is_write
           (trace (Tester.main offline_world "prompt"
                     {| Tester.files := None; Tester.output := None |})) = false
      /\ existsb on_stdout
           (trace (Tester.main offline_world "prompt"
                     {| Tester.files := None; Tester.output := None |})) = false).
Proof.
  destruct (failed_pipeline_leaves_no_output offline_world "prompt" "sk-test"
              "Connection error."
              {| Architect.files := Some ["a.go"];
                 Architect.output := Some "review.md" |}
              {| Reviewer.files := None; Reviewer.diff := true;
                 Reviewer.base := "main"; Reviewer.output := Some "review.md" |}
              {| Tester.files := None; Tester.output := None |}
              eq_refl ltac:(discriminate)) as [Ha [Hr Ht]].
  split; [|split].
  - apply Ha. reflexivity.
  - apply Hr. reflexivity.
  - apply Ht. reflexivity.
Defined.

Lemma after_key_check_unwritable (w : World) (banner what e text p : string)
    (run : M string) :
  p <> EmptyString -> open_write w p = Some e -> result run = Return text ->
  after_key_check w banner what run (Some p)
  = (EvStderr (banner ++ nl ++ nl) :: trace run, Raise e).
Proof.
  intros Hp Hw Hres.
  pose proof (after_key_check_trace w banner what run (Some p)) as Ht.
  pose proof (after_key_check_result w banner what run (Some p)) as Hr.
  rewrite Hres, route_output_run, (truthy_true p Hp), Hw in Ht, Hr.
  cbn [trace result fst snd] in Ht, Hr. rewrite app_nil_r in Ht.
  destruct (after_key_check w banner what run (Some p)) as [t o].
  cbn [trace result fst snd] in Ht, Hr. now subst.
Qed.

(** A destination that cannot be opened for writing is found out only at
    the end: the pipeline has run and its request has been answered, then
    [open] raises, and [main] ends with that error without having printed
    or written the answer anywhere. *)
Theorem unwritable_destination_loses_the_answer (w : World)
    (prompt key e text p : string)
    (a : Architect.Args) (r : Reviewer.Args) (t : Tester.Args) :
  environ w "ANTHROPIC_API_KEY" = Some key -> key <> EmptyString ->
  p <> EmptyString -> open_write w p = Some e ->
  (let run := Architect.run_review w prompt (Architect.files a) in
   Architect.output a = Some p -> result run = Return text ->
   Architect.main w prompt a
   = (EvStderr ("Running Go Architecture Review..." ++ nl ++ nl) :: trace run,
      Raise e))
  /\ (let run := Reviewer.run_review w prompt (Reviewer.files r)
                   (Reviewer.diff r) (Reviewer.base r) in
      Reviewer.output r = Some p -> result run = Return text ->
      Reviewer.main w prompt r
      = (EvStderr ("Running Go Code Review..." ++ nl ++ nl) :: trace run,
         Raise e))
  /\ (let run := Tester.run_test_generation w prompt (Tester.files t) in
      Tester.output t = Some p -> result run = Return text ->
      Tester.main w prompt t
      = (EvStderr ("Generating Go Tests..." ++ nl ++ nl) :: trace run,
         Raise e)).
Proof.
  intros Hkey Hne Hp Hw.
  rewrite (architect_main_body w prompt key a Hkey Hne),
    (reviewer_main_body w prompt key r Hkey Hne),
    (tester_main_body w prompt key t Hkey Hne).
  repeat apply conj; intros run Hout Hres; rewrite Hout;
    now apply after_key_check_unwritable with (text := text).
Qed.

Lemma unwritable_destination_loses_the_answer_witness :
  Architect.main spec_world "prompt"
    {| Architect.files := None; Architect.output := Some "/review.md" |}
  = (EvStderr ("Running Go Architecture Review..." ++ nl ++ nl)
     :: trace (Architect.run_review spec_world "prompt" None),
     Raise "[Errno 13] Permission denied: '/review.md'")
  /\ Reviewer.main spec_world "prompt"
       {| Reviewer.files := None; Reviewer.diff := false;
          Reviewer.base := "main"; Reviewer.output := Some "/review.md" |}
     = (EvStderr ("Running Go Code Review..." ++ nl ++ nl)
        :: trace (Reviewer.run_review spec_world "prompt" None false "main"),
        Raise "[Errno 13] Permission denied: '/review.md'")
  /\ Tester.main spec_world "prompt"
       {| Tester.files := None; Tester.output := Some "/review.md" |}
     = (EvStderr ("Generating Go Tests..." ++ nl ++ nl)
        :: trace (Tester.run_test_generation spec_world "prompt" None),
        Raise "[Errno 13] Permission denied: '/review.md'").
Proof.
  destruct (unwritable_destination_loses_the_answer spec_world "prompt"
              "sk-test" "[Errno 13] Permission denied: '/review.md'" "LGTM"
              "/review.md"
              {| Architect.files := None; Architect.output := Some "/review.md" |}
              {| Reviewer.files := None; Reviewer.diff := false;
                 Reviewer.base := "main"; Reviewer.output := Some "/review.md" |}
              {| Tester.files := None; Tester.output := Some "/review.md" |}
              eq_refl ltac:(discriminate) ltac:(discriminate) eq_refl)
    as [Ha [Hr Ht]].
  split; [|split].
  - apply Ha; reflexivity.
  - apply Hr; reflexivity.
  - apply Ht; reflexivity.
Defined.

(** A key that is set to the empty text counts as no key: each [main]
    prints the same error line on standard output and ends with
    [sys.exit(1)] before anything else happens. *)
Theorem empty_key_counts_as_missing (w : World) (prompt : string)
    (a : Architect.Args) (r : Reviewer.Args) (t : Tester.Args) :
  environ w "ANTHROPIC_API_KEY" = Some EmptyString ->
  let said :=
    [EvStdout ("Error: ANTHROPIC_API_KEY environment variable not set" ++ nl)] in
  Architect.main w prompt a = (said, SysExit 1)
  /\ Reviewer.main w prompt r = (said, SysExit 1)
  /\ Tester.main w prompt t = (said, SysExit 1).
Proof.
  intros Hkey said.
  unfold Architect.main, Reviewer.main, Tester.main, env_missing.
  rewrite Hkey. repeat split.
Qed.

Lemma empty_key_counts_as_missing_witness :
  let w := example_world (Some EmptyString) two_sources git_changes in
  Architect.main w "prompt"
    {| Architect.files := None; Architect.output := None |}
  = ([EvStdout ("Error: ANTHROPIC_API_KEY environment variable not set" ++ nl)],
     SysExit 1)
  /\ Reviewer.main w "prompt"
       {| Reviewer.files := None; Reviewer.diff := true;
          Reviewer.base := "main"; Reviewer.output := None |}
     = ([EvStdout ("Error: ANTHROPIC_API_KEY environment variable not set" ++ nl)],
        SysExit 1)
  /\ Tester.main w "prompt"
       {| Tester.files := Some ["a.go"]; Tester.output := Some "out.go" |}
     = ([EvStdout ("Error: ANTHROPIC_API_KEY environment variable not set" ++ nl)],
        SysExit 1).
Proof.
  intros w.
  apply (empty_key_counts_as_missing w "prompt"). reflexivity.
Defined.

Lemma filter_stderr_pipeline {A : Type} (m : M A) :
  gathers_then_asks m -> filter on_stderr (trace m) = [].
Proof.
  intros H. destruct (asks_once_in_silence m H) as [_ [_ [Hs _]]].
  induction (trace m) as [|e t IH]; [reflexivity|].
  cbn [existsb] in Hs. apply orb_false_iff in Hs as [He Ht].
  cbn [filter]. rewrite He. auto.
Qed.

Lemma after_key_check_stderr (w : World) (banner what : string)
    (run : M string) (output : option string) :
  gathers_then_asks run ->
  filter on_stderr (trace (after_key_check w banner what run output))
  = EvStderr (banner ++ nl ++ nl)
    :: match result run, output with
       | Return text, Some p =>
           if truthy p
           then match open_write w p, write_text w p text with
                | None, None => [EvStderr (what ++ " written to " ++ p ++ nl)]
                | _, _ => []
                end
           else []
       | _, _ => []
       end.
Proof.
  intros Hrun. rewrite after_key_check_trace.
  cbn [filter on_stderr]. f_equal.
  rewrite filter_app, (filter_stderr_pipeline run Hrun). cbn [app].
  destruct (result run) as [text|e|c]; try reflexivity.
  rewrite route_output_run. destruct output as [p|]; [|reflexivity].
  destruct (truthy p); [|reflexivity].
  destruct (open_write w p); [reflexivity|].
  now destruct (write_text w p text).
Qed.

Lemma after_key_check_done (w : World) (banner what : string)
    (run : M string) (output : option string) :
  gathers_then_asks run ->
  result (after_key_check w banner what run output) = Return tt ->
  filter on_stderr (trace (after_key_check w banner what run output))
  = EvStderr (banner ++ nl ++ nl)
    :: match output with
       | Some p =>
           if truthy p then [EvStderr (what ++ " written to " ++ p ++ nl)]
           else []
       | None => []
       end.
Proof.
  intros Hrun Hdone. rewrite (after_key_check_stderr w banner what run output Hrun).
  rewrite after_key_check_result in Hdone. f_equal.
  destruct (result run) as [text|e|c]; try discriminate Hdone.
  rewrite route_output_run in Hdone. destruct output as [p|]; [|reflexivity].
  destruct (truthy p); [|reflexivity].
  destruct (open_write w p); [discriminate Hdone|].
  now destruct (write_text w p text).
Qed.

(** The diagnostic stream of a run that has a key and ends normally: what
    the script prints there is the banner first and, after it, the line
    "... written to <path>" exactly when a destination was given; nothing
    else.  (A run that ends with an exception has printed the banner; what
    the interpreter adds when the exception leaves [main] is not the
    script's.) *)
Theorem stderr_is_banner_and_confirmation (w : World) (prompt key : string)
    (a : Architect.Args) (r : Reviewer.Args) (t : Tester.Args) :
  environ w "ANTHROPIC_API_KEY" = Some key -> key <> EmptyString ->
  let confirmation (what : string) (output : option string) :=
    match output with
    | Some p =>
        if truthy p then [EvStderr (what ++ " written to " ++ p ++ nl)] else []
    | None => []
    end in
  (result (Architect.main w prompt a) = Return tt ->
   filter on_stderr (trace (Architect.main w prompt a))
   = EvStderr ("Running Go Architecture Review..." ++ nl ++ nl)
     :: confirmation "Review" (Architect.output a))
  /\ (result (Reviewer.main w prompt r) = Return tt ->
      filter on_stderr (trace (Reviewer.main w prompt r))
      = EvStderr ("Running Go Code Review..." ++ nl ++ nl)
        :: confirmation "Review" (Reviewer.output r))
  /\ (result (Tester.main w prompt t) = Return tt ->
      filter on_stderr (trace (Tester.main w prompt t))
      = EvStderr ("Generating Go Tests..." ++ nl ++ nl)
        :: confirmation "Tests" (Tester.output t)).
Proof.
  intros Hkey Hne confirmation.
  rewrite (architect_main_body w prompt key a Hkey Hne),
    (reviewer_main_body w prompt key r Hkey Hne),
    (tester_main_body w prompt key t Hkey Hne).
  repeat apply conj; intros Hdone; apply after_key_check_done; trivial.
  - apply architect_asks.
  - apply reviewer_asks.
  - apply tester_asks.
Qed.

Lemma stderr_is_banner_and_confirmation_witness :
  filter on_stderr
    (trace (Architect.main spec_world "prompt"
              {| Architect.files := None; Architect.output := Some "a.md" |}))
  = [EvStderr ("Running Go Architecture Review..." ++ nl ++ nl);
     EvStderr ("Review" ++ " written to " ++ "a.md" ++ nl)]
  /\ filter on_stderr
       (trace (Reviewer.main spec_world "prompt"
                 {| Reviewer.files := None; Reviewer.diff := false;
                    Reviewer.base := "main";
                    Reviewer.output := Some EmptyString |}))
     = [EvStderr ("Running Go Code Review..." ++ nl ++ nl)]
  /\ filter on_stderr
       (trace (Tester.main spec_world "prompt"
                 {| Tester.files := None; Tester.output := None |}))
     = [EvStderr ("Generating Go Tests..." ++ nl ++ nl)].
Proof.
  destruct (stderr_is_banner_and_confirmation spec_world "prompt" "sk-test"
              {| Architect.files := None; Architect.output := Some "a.md" |}
              {| Reviewer.files := None; Reviewer.diff := false;
                 Reviewer.base := "main";
                 Reviewer.output := Some EmptyString |}
              {| Tester.files := None; Tester.output := None |}
              eq_refl ltac:(discriminate)) as [Ha [Hr Ht]].
  split; [|split].
  - apply Ha. reflexivity.
  - apply Hr. reflexivity.
  - apply Ht. reflexivity.
Defined.

Example stderr_of_failed_writes :
  filter on_stderr
    (trace (Architect.main spec_world "prompt"
              {| Architect.files := None; Architect.output := Some "/review.md" |}))
  = [EvStderr ("Running Go Architecture Review..." ++ nl ++ nl)]
  /\ Tester.main spec_world "prompt"
       {| Tester.files := None; Tester.output := Some "latin1.md" |}
     = ((EvStderr ("Generating Go Tests..." ++ nl ++ nl)
         :: trace (Tester.run_test_generation spec_world "prompt" None)
         ++ [EvOpenWrite "latin1.md"])%list,
        Raise "'latin-1' codec can't encode character").
Proof. split; reflexivity. Qed.

(** ** The reviewer's request in file mode *)

(** The one request of the reviewer outside diff mode, put together: the
    heading and the block of each selected file in the order selected, a
    file that cannot be read with its error block; nothing of [git] is in
    it. *)
Theorem reviewer_request_content (w : World) (prompt base : string)
    (files : option (list string)) (gf : list string) :
  result (Reviewer.go_files w files) = Return gf ->
  nonempty gf = true ->
  requests (trace (Reviewer.run_review w prompt files false base))
  = [ {| model := "claude-sonnet-4-20250514";
         max_tokens := 4096;
         system := prompt;
         user_content := "Please conduct a thorough code review:" ++ nl ++ nl
                         ++ "# Code to Review" ++ nl ++ nl
                         ++ join (map (block w) gf) |} ]
  /\ existsb (fun e => match e with EvSubprocess _ => true | _ => false end)
       (trace (Reviewer.run_review w prompt files false base)) = false.
Proof.
  intros Hgf Hne.
  pose proof (probing_reviewer_go_files w files) as Pg.
  apply requests_of_probing in Pg.
  assert (Hsub : existsb (fun e => match e with
                                   | EvSubprocess _ => true
                                   | _ => false
                                   end)
                   (trace (Reviewer.go_files w files)) = false).
  { unfold Reviewer.go_files. destruct (files_given files); [reflexivity|].
    now rewrite reviewer_find_go_files_run. }
  unfold Reviewer.run_review.
  rewrite trace_bind, Hgf, Hne. cbn [negb].
  rewrite append_files_run, bind_return. cbn [trace fst].
  unfold Reviewer.request. split.
  - rewrite !requests_app, Pg, requests_reads, requests_create. cbn [app].
    now rewrite ?append_assoc.
  - rewrite !existsb_app, Hsub. cbn [orb].
    apply orb_false_iff. split.
    + clear. induction gf as [|f gf IH]; [reflexivity | exact IH].
    + unfold create. cbn [bind emit].
      now destruct (messages_create w _).
Qed.

Lemma reviewer_request_content_witness :
  requests (trace (Reviewer.run_review with_tests "prompt"
                     (Some ["pkg/util_test.go"; "notes.md"; "main.go"])
                     false "main"))
  = [ {| model := "claude-sonnet-4-20250514";
         max_tokens := 4096;
         system := "prompt";
         user_content := "Please conduct a thorough code review:" ++ nl ++ nl
                         ++ "# Code to Review" ++ nl ++ nl
                         ++ join (map (block with_tests)
                                      ["pkg/util_test.go"; "main.go"]) |} ]
  /\ existsb (fun e => match e with EvSubprocess _ => true | _ => false end)
       (trace (Reviewer.run_review with_tests "prompt"
                 (Some ["pkg/util_test.go"; "notes.md"; "main.go"])
                 false "main")) = false.
Proof.
  apply (reviewer_request_content with_tests "prompt" "main"
           (Some ["pkg/util_test.go"; "notes.md"; "main.go"])
           ["pkg/util_test.go"; "main.go"]); reflexivity.
Defined.
